(** * CoreHealthStats: the aggregation and presentation-adapter layer

    A shallow embedding of the transformation logic of the front end:
    [utils/helpers.ts] (scalar aggregators, heart-rate zones, entity
    groupers, date ranges, durations, validation), the chart adapters and
    summary statistics computed inside [DashboardView] and [WorkoutView],
    the hooks of [hooks/useHealthData.ts], the token handling of
    [services/api.ts] and the validation of the two forms.

    Conventions of the embedding.
    - A JavaScript [number] is an IEEE 754 binary64 value.  Where a stated
      property depends on rounding (the zone thresholds, sums and means)
      numbers are [Double.t], the doubles of the standard library's
      [SpecFloat], rounded to nearest, ties to even.  The entity fields,
      the chart adapters, the summary cards and the durations keep the
      reading of a number as an exact rational ([Q], with numeric equality
      [Qeq], written [==]): what is stated of them depends only on which
      values are present, how they compare and the order in which they
      are added.
    - [number | null] and optional ([?:]) numeric fields are [option Q].
    - A plain JS object used as a dictionary is a [gmap string _].
    - The wall clock read by [dayjs()] is an explicit argument [now].
    - A hook's React state is a record; an [async] body is a function from
      the state before to the state after and the way it completed. *)

From Stdlib Require Import Ascii String QArith Qminmax Qround Lqa Sorted SpecFloat.
From stdpp Require Import gmap strings list fin_maps pretty.

Local Open Scope Z_scope.

(** ** JavaScript values *)

Module Js.

(** [Boolean(x)] for a numeric value that may be [null]/[undefined]:
    absent and zero are falsy, everything else is truthy. *)
Definition truthy (v : option Q) : bool :=
  match v with
  | Some x => negb (Qeq_bool x 0)
  | None => false
  end.

(** [v || d] on such a value. *)
Definition or_else (v : option Q) (d : Q) : Q :=
  match v with
  | Some x => if truthy v then x else d
  | None => d
  end.

(** [v!]: the non-null assertion is erased at run time; the value is
    read as it is.  Every use below sits behind a filter that has already
    removed the absent case, so the fallback is never taken. *)
Definition non_null (v : option Q) : Q :=
  match v with
  | Some x => x
  | None => 0%Q
  end.

(** [String.prototype.padStart] as dayjs re-implements it
    ([Utils.s (string, length, pad)]): left-pad with [pad] up to [len]. *)
Definition padStart (s : string) (len : nat) (pad : ascii) : string :=
  if (len <=? String.length s)%nat then s
  else string_of_list_ascii
         (replicate (len - String.length s) pad ++ list_ascii_of_string s).

End Js.

(** ** IEEE 754 binary64

    The doubles of JavaScript, as the standard library specifies them
    ([SpecFloat], after Flocq): the two signed zeros, the two infinities,
    NaN, and the finite values [(-1)^s * m * 2^e]; every arithmetic
    operation is rounded to nearest, ties to even. *)

Module Double.

Definition t : Type := spec_float.

Definition prec : Z := 53.
Definition emax : Z := 1024.

(** [x + y], [x * y], [x / y] *)
Definition add : t -> t -> t := SFadd prec emax.
Definition mul : t -> t -> t := SFmul prec emax.
Definition div : t -> t -> t := SFdiv prec emax.

(** [x < y], [x <= y], [x === y]: all false when either side is NaN, and
    the two zeros are equal. *)
Definition ltb : t -> t -> bool := SFltb.
Definition leb : t -> t -> bool := SFleb.
Definition eqb : t -> t -> bool := SFeqb.

(** An integer as a double (exact below 2^53): integer literals and
    [values.length]. *)
Definition of_Z (z : Z) : t := binary_normalize prec emax z 0 false.

(** The decimal literal whose value is [digits / power_of_ten], such as
    [0.7] for [decimal 7 10]: the double nearest to that rational, which
    is the correctly rounded quotient of the two integers. *)
Definition decimal (digits power_of_ten : Z) : t :=
  div (of_Z digits) (of_Z power_of_ten).

Definition zero : t := S754_zero false.
Definition neg_zero : t := S754_zero true.
Definition Infinity : t := S754_infinity false.
Definition neg_Infinity : t := S754_infinity true.
Definition NaN : t := S754_nan.

Definition isNaN (x : t) : bool :=
  match x with
  | S754_nan => true
  | _ => false
  end.

(** [x] is the zero of sign [s] ([true] for [-0]). *)
Definition is_zero_signed (s : bool) (x : t) : bool :=
  match x with
  | S754_zero s' => Bool.eqb s s'
  | _ => false
  end.

(** [Math.max (...args)] (ECMAScript 21.3.2.24): start from [-Infinity];
    a NaN argument makes the result NaN at once; [+0] replaces [-0]; a
    larger argument replaces the highest so far. *)
Fixpoint max_from (highest : t) (coerced : list t) : t :=
  match coerced with
  | [] => highest
  | number :: rest =>
      if isNaN number then NaN
      else
        let highest :=
          if is_zero_signed false number && is_zero_signed true highest
          then zero else highest in
        let highest := if ltb highest number then number else highest in
        max_from highest rest
  end.

(** [Math.min (...args)] (ECMAScript 21.3.2.25), the mirror image. *)
Fixpoint min_from (lowest : t) (coerced : list t) : t :=
  match coerced with
  | [] => lowest
  | number :: rest =>
      if isNaN number then NaN
      else
        let lowest :=
          if is_zero_signed true number && is_zero_signed false lowest
          then neg_zero else lowest in
        let lowest := if ltb number lowest then number else lowest in
        min_from lowest rest
  end.

Definition Math_max (args : list t) : t := max_from neg_Infinity args.
Definition Math_min (args : list t) : t := min_from Infinity args.

End Double.

(** *** The order behind [Math.max] and [Math.min]

    A double is ranked by a triple compared lexicographically: its class
    (negative infinity, negative, zero, positive, positive infinity), then
    exponent and mantissa, negated for the negative values; [-0] ranks just
    below [+0].  NaN is given the rank [nan], above everything for
    [Math.max] and below everything for [Math.min], which it absorbs. *)

Definition lexlt (p q : Z * Z * Z) : Prop :=
  let '(p1, p2, p3) := p in
  let '(q1, q2, q3) := q in
  p1 < q1 \/ (p1 = q1 /\ (p2 < q2 \/ (p2 = q2 /\ p3 < q3))).

Definition lexltb (p q : Z * Z * Z) : bool :=
  let '(p1, p2, p3) := p in
  let '(q1, q2, q3) := q in
  (p1 <? q1) || ((p1 =? q1) && ((p2 <? q2) || ((p2 =? q2) && (p3 <? q3)))).

Definition key (nan : Z) (x : Double.t) : Z * Z * Z :=
  match x with
  | S754_nan => (nan, 0, 0)
  | S754_infinity true => (-2, 0, 0)
  | S754_infinity false => (2, 0, 0)
  | S754_zero true => (0, 0, 0)
  | S754_zero false => (0, 0, 1)
  | S754_finite false m e => (1, e, Z.pos m)
  | S754_finite true m e => (-1, - e, Z.neg m)
  end.

Definition nkey (x : Double.t) : Z * Z * Z :=
  let '(c, e, m) := key (-3) x in (- c, - e, - m).

(** The later of two values in the order of their ranks [k]. *)
Definition select {A : Type} (k : A -> Z * Z * Z) (a b : A) : A :=
  if lexltb (k a) (k b) then b else a.

(** One step of [Math.max] and of [Math.min], as a selection by rank. *)
Definition max_step (highest number : Double.t) : Double.t :=
  if lexltb (key 3 highest) (key 3 number) then number else highest.
Definition min_step (lowest number : Double.t) : Double.t :=
  if lexltb (key (-3) number) (key (-3) lowest) then number else lowest.

(** ** types/health.ts *)

Module Workout.
Record t := mk {
  id : Z;
  upload : Z;
  workout_activity_type : string;
  duration : Q;
  duration_unit : string;
  total_distance : option Q;
  total_distance_unit : option string;
  total_energy_burned : option Q;
  total_energy_burned_unit : option string;
  source_name : string;
  source_version : option string;
  device : option string;
  creation_date : string;
  start_date : string;
  end_date : string;
  avg_heart_rate : option Q;
  max_heart_rate : option Q;
  trimp_score : option Q
}.
End Workout.

Module DailyMetrics.
Record t := mk {
  id : Z;
  user : option Z;
  date : string;
  avg_heart_rate : option Q;
  max_heart_rate : option Q;
  min_heart_rate : option Q;
  resting_heart_rate : option Q;
  step_count : option Q;
  distance_walking_running : option Q;
  active_energy_burned : option Q;
  basal_energy_burned : option Q;
  flights_climbed : option Q;
  vo2_max : option Q
}.
End DailyMetrics.

Module NightlyMetrics.
Record t := mk {
  id : Z;
  user : option Z;
  date : string;
  sleep_duration : option Q;
  time_in_bed : option Q;
  sleep_efficiency : option Q;
  avg_heart_rate_sleep : option Q
}.
End NightlyMetrics.

Module DateRange.
Record t := mk {
  start_date : string;
  end_date : string
}.
End DateRange.

Module HealthSummary.
Record workout_summary_t := mk_workout_summary {
  total_workouts : Q;
  total_duration : Q;
  total_distance : Q;
  total_energy_burned : Q;
  avg_trimp_score : Q
}.
Record heart_rate_summary_t := mk_heart_rate_summary {
  avg_resting_hr : Q;
  avg_max_hr : Q;
  hr_variability : Q
}.
Record activity_summary_t := mk_activity_summary {
  avg_daily_steps : Q;
  avg_daily_distance : Q;
  avg_daily_energy : Q
}.
Record sleep_summary_t := mk_sleep_summary {
  avg_sleep_duration : Q;
  avg_sleep_efficiency : Q;
  total_nights : Q
}.
Record t := mk {
  date_range : DateRange.t;
  workout_summary : workout_summary_t;
  heart_rate_summary : heart_rate_summary_t;
  activity_summary : activity_summary_t;
  sleep_summary : sleep_summary_t
}.
End HealthSummary.

Module ApiResponse.
Record t (T : Type) := mk {
  count : Z;
  next : option string;
  previous : option string;
  results : list T
}.
Arguments mk {T}.
Arguments count {T}.
Arguments next {T}.
Arguments previous {T}.
Arguments results {T}.
End ApiResponse.

Module WorkoutFilter.
Record t := mk {
  workout_activity_type : option string;
  start_date : option string;
  end_date : option string;
  min_duration : option Q;
  max_duration : option Q
}.
End WorkoutFilter.

Module ChartDataPoint.
Record t := mk {
  date : string;
  value : Q
}.
End ChartDataPoint.

Module WorkoutChartData.
Record t := mk {
  date : string;
  duration : Q;
  distance : Q;
  energy : Q;
  heart_rate : Q;
  trimp_score : Q;
  activity_type : string
}.
End WorkoutChartData.

Module HeartRateZoneData.
Record t := mk {
  zone : string;
  percentage : Double.t;
  time : Double.t;
  color : string
}.
End HeartRateZoneData.

(** ** utils/helpers.ts: heart-rate zones *)

Definition calculateHeartRateZones (maxHR : Double.t) : list HeartRateZoneData.t :=
  [ HeartRateZoneData.mk "Zone 1 (Recovery)" (Double.of_Z 50)
      (Double.mul maxHR (Double.decimal 5 10)) "#4FC3F7";
    HeartRateZoneData.mk "Zone 2 (Aerobic)" (Double.of_Z 60)
      (Double.mul maxHR (Double.decimal 6 10)) "#81C784";
    HeartRateZoneData.mk "Zone 3 (Threshold)" (Double.of_Z 70)
      (Double.mul maxHR (Double.decimal 7 10)) "#FFB74D";
    HeartRateZoneData.mk "Zone 4 (VO2 Max)" (Double.of_Z 80)
      (Double.mul maxHR (Double.decimal 8 10)) "#FF8A65";
    HeartRateZoneData.mk "Zone 5 (Anaerobic)" (Double.of_Z 90)
      (Double.mul maxHR (Double.decimal 9 10)) "#F06292" ].

(** ** utils/helpers.ts: statistics

    First with numbers read as exact rationals: the reading the charts and
    summary cards below are stated in, where only comparisons and the
    order of the additions matter. *)

Local Open Scope Q_scope.

(** [Math.max(x, ...rest)] and [Math.min(x, ...rest)] with at least one
    argument.  (With no argument they are [-Infinity] and [Infinity]; the
    aggregators below return before calling them on an empty array.) *)
Definition Math_max (x : Q) (rest : list Q) : Q := fold_left Qmax rest x.
Definition Math_min (x : Q) (rest : list Q) : Q := fold_left Qmin rest x.

(** [values.reduce((sum, value) => sum + value, 0)] *)
Definition reduce_sum (values : list Q) : Q := fold_left Qplus values 0.

Definition calculateAverage (values : list Q) : Q :=
  if (length values =? 0)%nat then 0
  else reduce_sum values / inject_Z (Z.of_nat (length values)).

Definition calculateMax (values : list Q) : Q :=
  match values with
  | [] => 0
  | x :: rest => Math_max x rest
  end.

Definition calculateMin (values : list Q) : Q :=
  match values with
  | [] => 0
  | x :: rest => Math_min x rest
  end.

Definition calculateSum (values : list Q) : Q := reduce_sum values.

(** The same four functions on doubles, where every addition and the final
    division round. *)
Module Rounded.

(** [values.reduce((sum, value) => sum + value, 0)] *)
Definition reduce_sum (values : list Double.t) : Double.t :=
  fold_left Double.add values Double.zero.

Definition calculateAverage (values : list Double.t) : Double.t :=
  if (length values =? 0)%nat then Double.zero
  else Double.div (reduce_sum values) (Double.of_Z (Z.of_nat (length values))).

Definition calculateMax (values : list Double.t) : Double.t :=
  if (length values =? 0)%nat then Double.zero else Double.Math_max values.

Definition calculateMin (values : list Double.t) : Double.t :=
  if (length values =? 0)%nat then Double.zero else Double.Math_min values.

Definition calculateSum (values : list Double.t) : Double.t := reduce_sum values.

End Rounded.


(** ** The parts of dayjs the helpers rely on

    dayjs is an external library.  A dayjs object is modelled by the local
    calendar date it stands for ([$y], [$M + 1], [$D]); the time of day plays
    no part in anything the helpers compute.  Day arithmetic goes through
    [Date.prototype.setDate], which moves along the proleptic Gregorian
    calendar one day at a time. *)

Local Open Scope Z_scope.

Module Dayjs.

Record t := mk {
  year : Z;
  month : Z;
  day : Z
}.

Definition is_leap (y : Z) : bool :=
  (y mod 4 =? 0) && (negb (y mod 100 =? 0) || (y mod 400 =? 0)).

Definition days_in_month (y m : Z) : Z :=
  if m =? 2 then (if is_leap y then 29 else 28)
  else if (m =? 4) || (m =? 6) || (m =? 9) || (m =? 11) then 30
  else 31.

Definition next_day (d : t) : t :=
  if day d <? days_in_month (year d) (month d) then mk (year d) (month d) (day d + 1)
  else if month d <? 12 then mk (year d) (month d + 1) 1
  else mk (year d + 1) 1 1.

Definition prev_day (d : t) : t :=
  if 1 <? day d then mk (year d) (month d) (day d - 1)
  else if 1 <? month d then mk (year d) (month d - 1) (days_in_month (year d) (month d - 1))
  else mk (year d - 1) 12 31.

(** [d.date(d.date() + n)] *)
Definition add_days (n : Z) (d : t) : t :=
  match n with
  | Z0 => d
  | Zpos p => Pos.iter next_day d p
  | Zneg p => Pos.iter prev_day d p
  end.

(** [.add(n, 'day')] and [.subtract(n, 'day')]; [subtract] is
    [add(n * -1)]. *)
Definition add (n : Z) (d : t) : t := add_days n d.
Definition subtract (n : Z) (d : t) : t := add (n * -1) d.

(** Days since 1970-01-01, and [$W], the day of the week (0 is Sunday). *)
Definition day_number (d : t) : Z :=
  let y := if month d <=? 2 then year d - 1 else year d in
  let era := y / 400 in
  let yoe := y - era * 400 in
  let mp := (month d + 9) mod 12 in
  let doy := (153 * mp + 2) / 5 + day d - 1 in
  let doe := yoe * 365 + yoe / 4 - yoe / 100 + doy in
  era * 146097 + doe - 719468.

Definition weekday (d : t) : Z := (day_number d + 4) mod 7.

(** [startOf('week')] and [endOf('week')] in the default locale, whose
    [weekStart] is 0 (Sunday). *)
Definition week_gap (d : t) : Z :=
  let weekStart := 0 in
  (if weekday d <? weekStart then weekday d + 7 else weekday d) - weekStart.

Definition startOf_week (d : t) : t := add_days (- week_gap d) d.
Definition endOf_week (d : t) : t := add_days (6 - week_gap d) d.

(** [startOf('month')] is day 1 of the month; [endOf('month')] is day 0
    of the following month, which [Date] resolves to the day before its
    first. *)
Definition startOf_month (d : t) : t := mk (year d) (month d) 1.
Definition endOf_month (d : t) : t :=
  prev_day (if month d <? 12 then mk (year d) (month d + 1) 1
            else mk (year d + 1) 1 1).

(** [.format('YYYY-MM-DD')] *)
Definition format_YYYY_MM_DD (d : t) : string :=
  Js.padStart (pretty (year d)) 4 "0" +:+ "-" +:+
  Js.padStart (pretty (month d)) 2 "0" +:+ "-" +:+
  Js.padStart (pretty (day d)) 2 "0".

(** Calendar order. *)
Definition leb (a b : t) : bool :=
  (year a <? year b)
  || ((year a =? year b)
      && ((month a <? month b) || ((month a =? month b) && (day a <=? day b)))).

Definition le (a b : t) : Prop :=
  year a < year b
  \/ (year a = year b /\ (month a < month b \/ (month a = month b /\ day a <= day b))).

(** A date the clock can show. *)
Definition valid (d : t) : Prop :=
  1 <= month d <= 12 /\ 1 <= day d <= days_in_month (year d) (month d).

End Dayjs.

(** ** utils/helpers.ts: date ranges *)

Definition getLastNDays (now : Dayjs.t) (days : Z) : DateRange.t :=
  let endDate := now in
  let startDate := Dayjs.subtract days endDate in
  DateRange.mk (Dayjs.format_YYYY_MM_DD startDate)
               (Dayjs.format_YYYY_MM_DD endDate).

Definition getThisWeek (now : Dayjs.t) : DateRange.t :=
  let startOfWeek := Dayjs.startOf_week now in
  let endOfWeek := Dayjs.endOf_week now in
  DateRange.mk (Dayjs.format_YYYY_MM_DD startOfWeek)
               (Dayjs.format_YYYY_MM_DD endOfWeek).

Definition getThisMonth (now : Dayjs.t) : DateRange.t :=
  let startOfMonth := Dayjs.startOf_month now in
  let endOfMonth := Dayjs.endOf_month now in
  DateRange.mk (Dayjs.format_YYYY_MM_DD startOfMonth)
               (Dayjs.format_YYYY_MM_DD endOfMonth).

(** [getDateRange] of [DashboardView]: the named selector to a range. *)
Definition getDateRange (now : Dayjs.t) (timeRange : string) : DateRange.t :=
  if String.eqb timeRange "7days" then getLastNDays now 7
  else if String.eqb timeRange "30days" then getLastNDays now 30
  else if String.eqb timeRange "week" then getThisWeek now
  else if String.eqb timeRange "month" then getThisMonth now
  else getLastNDays now 30.

(** ** utils/helpers.ts: grouping by date *)

Section Grouping.

(** [dayjs(s)] on a timestamp string: the local calendar date, or nothing
    when the string does not parse (an invalid dayjs object). *)
Variable dayjs_parse : string -> option Dayjs.t.

Definition formatDate (date : string) : string :=
  match dayjs_parse date with
  | Some d => Dayjs.format_YYYY_MM_DD d
  | None => "Invalid Date"
  end.

(** One step of the reducer: create the bucket when the key is new, then
    push. *)
Definition groupWorkouts_step (groups : gmap string (list Workout.t))
    (workout : Workout.t) : gmap string (list Workout.t) :=
  let date := formatDate (Workout.start_date workout) in
  let groups' :=
    match groups !! date with
    | Some _ => groups
    | None => <[date := []]> groups
    end in
  match groups' !! date with
  | Some bucket => <[date := bucket ++ [workout]]> groups'
  | None => groups'
  end.

Definition groupWorkoutsByDate (workouts : list Workout.t)
    : gmap string (list Workout.t) :=
  fold_left groupWorkouts_step workouts ∅.

End Grouping.

(** The keys are the [date] strings of the entities, calendar dates as
    the back end sends them; none of them names a property that a fresh
    object literal inherits. *)
Definition groupDailyMetricsByDate (metrics : list DailyMetrics.t)
    : gmap string DailyMetrics.t :=
  fold_left (fun groups metric =>
               let date := DailyMetrics.date metric in
               <[date := metric]> groups)
            metrics ∅.

(** ** Chart adapters computed by the views *)

Module DashboardView.

Definition heartRateData (dailyMetrics : list DailyMetrics.t)
    : list ChartDataPoint.t :=
  map (fun metric =>
         ChartDataPoint.mk (DailyMetrics.date metric)
                           (Js.non_null (DailyMetrics.avg_heart_rate metric)))
      (List.filter (fun metric => Js.truthy (DailyMetrics.avg_heart_rate metric))
                   dailyMetrics).

Definition stepCountData (dailyMetrics : list DailyMetrics.t)
    : list ChartDataPoint.t :=
  map (fun metric =>
         ChartDataPoint.mk (DailyMetrics.date metric)
                           (Js.non_null (DailyMetrics.step_count metric)))
      (List.filter (fun metric => Js.truthy (DailyMetrics.step_count metric))
                   dailyMetrics).

Definition workoutChartData (workouts : list Workout.t)
    : list WorkoutChartData.t :=
  map (fun workout =>
         WorkoutChartData.mk
           (Workout.start_date workout)
           (Workout.duration workout)
           (Js.or_else (Workout.total_distance workout) 0)
           (Js.or_else (Workout.total_energy_burned workout) 0)
           (Js.or_else (Workout.avg_heart_rate workout) 0)
           (Js.or_else (Workout.trimp_score workout) 0)
           (Workout.workout_activity_type workout))
      workouts.

Definition sleepData (nightlyMetrics : list NightlyMetrics.t)
    : list ChartDataPoint.t :=
  map (fun metric =>
         ChartDataPoint.mk
           (NightlyMetrics.date metric)
           (Js.non_null (NightlyMetrics.sleep_duration metric) / 60)%Q)
      (List.filter (fun metric => Js.truthy (NightlyMetrics.sleep_duration metric))
                   nightlyMetrics).


Definition totalSteps (dailyMetrics : list DailyMetrics.t) : Q :=
  fold_left (fun sum m => sum + Js.or_else (DailyMetrics.step_count m) 0)%Q
            dailyMetrics 0%Q.

Definition totalWorkouts (workouts : list Workout.t) : nat := length workouts.

Definition totalWorkoutTime (workouts : list Workout.t) : Q :=
  fold_left (fun sum w => sum + Workout.duration w)%Q workouts 0%Q.


(** The view shows its loading placeholder while any of the four hooks is
    loading. *)
Definition showsLoading (workoutsLoading dailyLoading sleepLoading summaryLoading : bool)
    : bool :=
  workoutsLoading || dailyLoading || sleepLoading || summaryLoading.

End DashboardView.

Module WorkoutView.

Definition workoutChartData (workouts : list Workout.t)
    : list WorkoutChartData.t :=
  map (fun workout =>
         WorkoutChartData.mk
           (Workout.start_date workout)
           (Workout.duration workout)
           (Js.or_else (Workout.total_distance workout) 0)
           (Js.or_else (Workout.total_energy_burned workout) 0)
           (Js.or_else (Workout.avg_heart_rate workout) 0)
           (Js.or_else (Workout.trimp_score workout) 0)
           (Workout.workout_activity_type workout))
      workouts.

(** [getDateRange] of [WorkoutView]. *)
Definition getDateRange (now : Dayjs.t) (timeRange : string) : DateRange.t :=
  if String.eqb timeRange "7days" then getLastNDays now 7
  else if String.eqb timeRange "30days" then getLastNDays now 30
  else if String.eqb timeRange "90days" then getLastNDays now 90
  else getLastNDays now 30.

(** The rows given to the "Energy Burned" chart:
    [workoutChartData.filter(w => w.energy > 0)]. *)
Definition energyChartData (workouts : list Workout.t) : list WorkoutChartData.t :=
  List.filter (fun w => negb (Qle_bool (WorkoutChartData.energy w) 0))
              (workoutChartData workouts).

End WorkoutView.

(** ** hooks/useHealthData.ts

    An [async] function body is a computation over the state it writes
    (the hook's [useState] cells and the console) that either returns or
    throws.  Writes made before a throw stay made, as in JavaScript. *)

Module Eff.

Definition JsError := string.

Inductive completion (A : Type) :=
| Returned (a : A)
| Thrown (e : JsError).
Arguments Returned {A}.
Arguments Thrown {A}.

Definition t (S A : Type) : Type := S -> S * completion A.

Definition ret {S A} (a : A) : t S A := fun s => (s, Returned a).

Definition bind {S A B} (c : t S A) (k : A -> t S B) : t S B :=
  fun s =>
    match c s with
    | (s1, Returned a) => k a s1
    | (s1, Thrown e) => (s1, Thrown e)
    end.

Definition throw {S A} (e : JsError) : t S A := fun s => (s, Thrown e).

(** [try { body } catch (err) { handler } finally { cleanup }] *)
Definition try_catch_finally {S A} (body : t S A) (handler : JsError -> t S A)
    (cleanup : t S unit) : t S A :=
  fun s =>
    let '(s2, r) :=
      match body s with
      | (s1, Returned a) => (s1, Returned a)
      | (s1, Thrown e) => handler e s1
      end in
    match cleanup s2 with
    | (s3, Returned _) => (s3, r)
    | (s3, Thrown e) => (s3, Thrown e)
    end.

(** A promise as [await] sees it once it has settled. *)
Inductive settled (A : Type) :=
| Fulfilled (v : A)
| Rejected (reason : JsError).
Arguments Fulfilled {A}.
Arguments Rejected {A}.

Definition await {S A} (p : settled A) : t S A :=
  match p with
  | Fulfilled v => ret v
  | Rejected reason => throw reason
  end.

End Eff.

#[global] Instance Eff_ret {S} : MRet (Eff.t S) := @Eff.ret S.
#[global] Instance Eff_bind {S} : MBind (Eff.t S) :=
  fun A B k c => Eff.bind c k.

(** The state one hook instance owns: its three [useState] cells, and the
    console it logs to. *)
Record HookState (D : Type) := mkHookState {
  data : D;
  loading : bool;
  error : option string;
  console : list Eff.JsError
}.
Arguments mkHookState {D}.
Arguments data {D}.
Arguments loading {D}.
Arguments error {D}.
Arguments console {D}.

(** [useState] initial values. *)
Definition useState_init {D} (d : D) : HookState D := mkHookState d true None [].

Definition setData {D} (d : D) : Eff.t (HookState D) unit :=
  fun s => (mkHookState d (loading s) (error s) (console s), Eff.Returned tt).
Definition setLoading {D} (b : bool) : Eff.t (HookState D) unit :=
  fun s => (mkHookState (data s) b (error s) (console s), Eff.Returned tt).
Definition setError {D} (e : option string) : Eff.t (HookState D) unit :=
  fun s => (mkHookState (data s) (loading s) e (console s), Eff.Returned tt).
Definition console_error {D} (err : Eff.JsError) : Eff.t (HookState D) unit :=
  fun s => (mkHookState (data s) (loading s) (error s) (console s ++ [err]),
            Eff.Returned tt).

(** The static methods of [HealthAnalyticsAPI] the hooks call, each with
    the way its promise settles. *)
Record HealthAnalyticsAPI := mkAPI {
  getWorkouts : option WorkoutFilter.t -> Eff.settled (ApiResponse.t Workout.t);
  getDailyMetrics : option DateRange.t -> Eff.settled (ApiResponse.t DailyMetrics.t);
  getNightlyMetrics : option DateRange.t -> Eff.settled (ApiResponse.t NightlyMetrics.t);
  getHealthSummary : DateRange.t -> Eff.settled HealthSummary.t
}.

Section Hooks.

Variable API : HealthAnalyticsAPI.

(** [useWorkouts] *)
Definition fetchWorkouts (filter : option WorkoutFilter.t)
    : Eff.t (HookState (list Workout.t)) unit :=
  let setWorkouts := @setData (list Workout.t) in
  Eff.try_catch_finally
    (setLoading true ;;
     response ← Eff.await (getWorkouts API filter);
     setWorkouts (ApiResponse.results response) ;;
     setError None)
    (fun err =>
       setError (Some "Failed to fetch workouts") ;;
       console_error err ;;
       setWorkouts [])
    (setLoading false).

(** [useDailyMetrics] *)
Definition fetchDailyMetrics (dateRange : option DateRange.t)
    : Eff.t (HookState (list DailyMetrics.t)) unit :=
  let setDailyMetrics := @setData (list DailyMetrics.t) in
  Eff.try_catch_finally
    (setLoading true ;;
     response ← Eff.await (getDailyMetrics API dateRange);
     setDailyMetrics (ApiResponse.results response) ;;
     setError None)
    (fun err =>
       setError (Some "Failed to fetch daily metrics") ;;
       console_error err ;;
       setDailyMetrics [])
    (setLoading false).

(** [useNightlyMetrics] *)
Definition fetchNightlyMetrics (dateRange : option DateRange.t)
    : Eff.t (HookState (list NightlyMetrics.t)) unit :=
  let setNightlyMetrics := @setData (list NightlyMetrics.t) in
  Eff.try_catch_finally
    (setLoading true ;;
     response ← Eff.await (getNightlyMetrics API dateRange);
     setNightlyMetrics (ApiResponse.results response) ;;
     setError None)
    (fun err =>
       setError (Some "Failed to fetch nightly metrics") ;;
       console_error err ;;
       setNightlyMetrics [])
    (setLoading false).

(** [useHealthSummary] *)
Definition fetchSummary (dateRange : DateRange.t)
    : Eff.t (HookState (option HealthSummary.t)) unit :=
  let setSummary := @setData (option HealthSummary.t) in
  Eff.try_catch_finally
    (setLoading true ;;
     response ← Eff.await (getHealthSummary API dateRange);
     setSummary (Some response) ;;
     setError None)
    (fun err =>
       setError (Some "Failed to fetch health summary") ;;
       console_error err)
    (setLoading false).

(** The effect of [useHealthSummary]: the request is only made for a range
    with both ends non-empty. *)
Definition useHealthSummary_effect (dateRange : DateRange.t)
    : Eff.t (HookState (option HealthSummary.t)) unit :=
  if negb (String.eqb (DateRange.start_date dateRange) "")
     && negb (String.eqb (DateRange.end_date dateRange) "")
  then fetchSummary dateRange
  else Eff.ret tt.

End Hooks.

(** ** hooks/useHealthData.ts: the trend hooks

    [useWorkoutTrends] and [useDailyTrends] hold a payload of type [any];
    the two requests are taken as they settle. *)

Section TrendHooks.

Variable any : Type.
Variable getWorkoutTrends : DateRange.t -> Eff.settled any.
Variable getDailyTrends : DateRange.t -> Eff.settled any.

Definition fetchWorkoutTrends (dateRange : DateRange.t)
    : Eff.t (HookState (option any)) unit :=
  let setTrends := @setData (option any) in
  Eff.try_catch_finally
    (setLoading true ;;
     response ← Eff.await (getWorkoutTrends dateRange);
     setTrends (Some response) ;;
     setError None)
    (fun err =>
       setError (Some "Failed to fetch workout trends") ;;
       console_error err)
    (setLoading false).

Definition useWorkoutTrends_effect (dateRange : DateRange.t)
    : Eff.t (HookState (option any)) unit :=
  if negb (String.eqb (DateRange.start_date dateRange) "")
     && negb (String.eqb (DateRange.end_date dateRange) "")
  then fetchWorkoutTrends dateRange
  else Eff.ret tt.

Definition fetchDailyTrends (dateRange : DateRange.t)
    : Eff.t (HookState (option any)) unit :=
  let setTrends := @setData (option any) in
  Eff.try_catch_finally
    (setLoading true ;;
     response ← Eff.await (getDailyTrends dateRange);
     setTrends (Some response) ;;
     setError None)
    (fun err =>
       setError (Some "Failed to fetch daily trends") ;;
       console_error err)
    (setLoading false).

Definition useDailyTrends_effect (dateRange : DateRange.t)
    : Eff.t (HookState (option any)) unit :=
  if negb (String.eqb (DateRange.start_date dateRange) "")
     && negb (String.eqb (DateRange.end_date dateRange) "")
  then fetchDailyTrends dateRange
  else Eff.ret tt.

End TrendHooks.

(** ** services/api.ts: the token store and the two interceptors

    The browser state the client touches is [localStorage], the page
    address and the console.  A request is given by the way the server
    answers it, as a function of the [Authorization] header it carries. *)

Record Browser := mkBrowser {
  localStorage : gmap string string;
  location_href : string;
  browser_console : list string
}.

(** The outcome of an HTTP exchange before the response interceptor:
    data, or an error with the status of its response ([None] when there
    was no response at all). *)
Inductive HttpResult (D : Type) :=
| HttpOk (response_data : D)
| HttpError (status : option Z) (message : Eff.JsError).
Arguments HttpOk {D}.
Arguments HttpError {D}.

Definition getItem (key : string) (b : Browser) : option string :=
  localStorage b !! key.

Definition setItem (key value : string) : Eff.t Browser unit :=
  fun b => (mkBrowser (<[key := value]> (localStorage b)) (location_href b)
                      (browser_console b),
            Eff.Returned tt).

Definition removeItem (key : string) : Eff.t Browser unit :=
  fun b => (mkBrowser (delete key (localStorage b)) (location_href b)
                      (browser_console b),
            Eff.Returned tt).

Definition set_location_href (url : string) : Eff.t Browser unit :=
  fun b => (mkBrowser (localStorage b) url (browser_console b), Eff.Returned tt).

Definition browser_console_error (args : list string) : Eff.t Browser unit :=
  fun b => (mkBrowser (localStorage b) (location_href b) (browser_console b ++ args),
            Eff.Returned tt).

(** Truthiness of a string that may be [null]/[undefined]. *)
Definition truthy_string (v : option string) : bool :=
  match v with
  | Some s => negb (String.eqb s "")
  | None => false
  end.

(** The request interceptor: the [Authorization] header of the outgoing
    request, set when a token is stored. *)
Definition request_authorization (b : Browser) : option string :=
  let token := getItem "authToken" b in
  match token with
  | Some t => if truthy_string token then Some ("Bearer " +:+ t) else None
  | None => None
  end.

(** One exchange through both interceptors: on an error whose response
    has status 401 the token is removed and the page sent to [/login];
    every error is then rejected on. *)
Definition api_request {D} (answer : option string -> HttpResult D)
    : Eff.t Browser D :=
  fun b =>
    match answer (request_authorization b) with
    | HttpOk d => (b, Eff.Returned d)
    | HttpError status message =>
        ((if bool_decide (status = Some 401%Z)
          then removeItem "authToken" ;; set_location_href "/login"
          else Eff.ret tt) ;;
         Eff.throw message) b
    end.

(** [try { body } catch (err) { handler }] *)
Definition try_catch {S A} (body : Eff.t S A) (handler : Eff.JsError -> Eff.t S A)
    : Eff.t S A :=
  fun s =>
    match body s with
    | (s1, Eff.Returned a) => (s1, Eff.Returned a)
    | (s1, Eff.Thrown e) => handler e s1
    end.

Module LoginData.
Record t := mk {
  token : option string;
  user_id : option Z
}.
End LoginData.

Module AuthAPI.

(** [HealthAnalyticsAPI.login]; [post] is the exchange with
    [/auth/login/] for the given credentials. *)
Definition login (post : string -> string -> option string -> HttpResult LoginData.t)
    (username password : string) : Eff.t Browser LoginData.t :=
  try_catch
    (response_data ← api_request (post username password);
     (if truthy_string (LoginData.token response_data)
      then setItem "authToken" (default "" (LoginData.token response_data))
      else Eff.ret tt) ;;
     Eff.ret response_data)
    (fun error => Eff.throw error).

(** [HealthAnalyticsAPI.logout] *)
Definition logout (post : option string -> HttpResult unit) : Eff.t Browser unit :=
  Eff.try_catch_finally
    (api_request post)
    (fun error => browser_console_error ["Logout error:"; error])
    (removeItem "authToken").

Definition isAuthenticated (b : Browser) : bool :=
  truthy_string (getItem "authToken" b).

Definition getAuthToken (b : Browser) : option string := getItem "authToken" b.

End AuthAPI.

(** ** hooks/useHealthData.ts: [useAuth] *)

Record AuthWorld := mkAuthWorld {
  browser : Browser;
  isAuthenticated : bool
}.

(** Run a client call inside the world of the hook. *)
Definition in_browser {A} (c : Eff.t Browser A) : Eff.t AuthWorld A :=
  fun w =>
    let '(b, r) := c (browser w) in
    (mkAuthWorld b (isAuthenticated w), r).

Definition setIsAuthenticated (v : bool) : Eff.t AuthWorld unit :=
  fun w => (mkAuthWorld (browser w) v, Eff.Returned tt).

Module useAuth.

(** [useState(HealthAnalyticsAPI.isAuthenticated())] *)
Definition init (b : Browser) : AuthWorld := mkAuthWorld b (AuthAPI.isAuthenticated b).

Definition login (post : string -> string -> option string -> HttpResult LoginData.t)
    (username password : string) : Eff.t AuthWorld bool :=
  try_catch
    (in_browser (AuthAPI.login post username password) ;;
     setIsAuthenticated true ;;
     Eff.ret true)
    (fun error => Eff.throw error).

Definition logout (post : option string -> HttpResult unit) : Eff.t AuthWorld unit :=
  in_browser (AuthAPI.logout post) ;;
  setIsAuthenticated false.

End useAuth.

(** ** utils/helpers.ts: durations

    [Math.floor], [Math.round] (halves go up) and the remainder operator
    [%] (the quotient is truncated toward zero) on exact rationals. *)

Definition Math_floor (x : Q) : Z := Qfloor x.

Definition Math_round (x : Q) : Z := Qfloor (x + (1 # 2))%Q.

Definition Math_trunc (x : Q) : Z :=
  if Qle_bool 0%Q x then Qfloor x else Qceiling x.

Definition js_rem (a b : Q) : Q := (a - b * inject_Z (Math_trunc (a / b)))%Q.

(** An integral number in a template literal is printed in decimal. *)
Definition formatDuration (minutes : Q) : string :=
  let hours := Math_floor (minutes / 60)%Q in
  let mins := Math_round (js_rem minutes 60%Q) in
  if (0 <? hours)%Z then pretty hours +:+ "h " +:+ pretty mins +:+ "m"
  else pretty mins +:+ "m".

Definition formatDurationDetailed (minutes : Q) : string :=
  let hours := Math_floor (minutes / 60)%Q in
  let mins := Math_round (js_rem minutes 60%Q) in
  if (0 <? hours)%Z
  then pretty hours +:+ " hour" +:+ (if (hours =? 1)%Z then "" else "s") +:+ " "
       +:+ pretty mins +:+ " minute" +:+ (if (mins =? 1)%Z then "" else "s")
  else pretty mins +:+ " minute" +:+ (if (mins =? 1)%Z then "" else "s").

(** ** Strings typed into the forms

    A string a user types is the sequence of its UTF-16 code units; the
    regular expression of [isValidEmail] has no [u] flag and works on code
    units too. *)

Definition JsString := list N.

(** The class [\s], which is also what [trim] strips: WhiteSpace and
    LineTerminator of ECMAScript. *)
Definition is_white_space (c : N) : bool :=
  ((9 <=? c) && (c <=? 13) || (c =? 32) || (c =? 160) || (c =? 5760)
   || (8192 <=? c) && (c <=? 8202) || (c =? 8232) || (c =? 8233)
   || (c =? 8239) || (c =? 8287) || (c =? 12288) || (c =? 65279))%N.

Fixpoint trimStart (s : JsString) : JsString :=
  match s with
  | c :: rest => if is_white_space c then trimStart rest else s
  | [] => []
  end.

Definition trim (s : JsString) : JsString :=
  rev (trimStart (rev (trimStart s))).

(** Regular expressions over code units, with the constructs the pattern
    of [isValidEmail] needs, matched by derivatives. *)
Inductive Regex :=
| Never
| Epsilon
| Class (p : N -> bool)
| Seq (r1 r2 : Regex)
| Or (r1 r2 : Regex)
| Star (r : Regex).

Definition Plus (r : Regex) : Regex := Seq r (Star r).

Fixpoint nullable (r : Regex) : bool :=
  match r with
  | Never => false
  | Epsilon => true
  | Class _ => false
  | Seq r1 r2 => nullable r1 && nullable r2
  | Or r1 r2 => nullable r1 || nullable r2
  | Star _ => true
  end.

Fixpoint deriv (c : N) (r : Regex) : Regex :=
  match r with
  | Never => Never
  | Epsilon => Never
  | Class p => if p c then Epsilon else Never
  | Seq r1 r2 =>
      if nullable r1 then Or (Seq (deriv c r1) r2) (deriv c r2)
      else Seq (deriv c r1) r2
  | Or r1 r2 => Or (deriv c r1) (deriv c r2)
  | Star r1 => Seq (deriv c r1) (Star r1)
  end.

(** [/^r$/.test(s)] *)
Definition regex_test (r : Regex) (s : JsString) : bool :=
  nullable (fold_left (fun r c => deriv c r) s r).

(** What it means for a string to match. *)
Inductive Matches : Regex -> JsString -> Prop :=
| Matches_Epsilon : Matches Epsilon []
| Matches_Class p c : p c = true -> Matches (Class p) [c]
| Matches_Seq r1 r2 s1 s2 :
    Matches r1 s1 -> Matches r2 s2 -> Matches (Seq r1 r2) (s1 ++ s2)
| Matches_Or_l r1 r2 s : Matches r1 s -> Matches (Or r1 r2) s
| Matches_Or_r r1 r2 s : Matches r2 s -> Matches (Or r1 r2) s
| Matches_Star_nil r : Matches (Star r) []
| Matches_Star_app r s1 s2 :
    Matches r s1 -> Matches (Star r) s2 -> Matches (Star r) (s1 ++ s2).

(** ** utils/helpers.ts: validation *)

Definition at_sign : N := 64.
Definition full_stop : N := 46.

(** [[^\s@]] *)
Definition not_space_or_at (c : N) : bool :=
  negb (is_white_space c || (c =? at_sign)%N).

(** [/^[^\s@]+@[^\s@]+\.[^\s@]+$/] *)
Definition emailRegex : Regex :=
  Seq (Plus (Class not_space_or_at))
      (Seq (Class (N.eqb at_sign))
           (Seq (Plus (Class not_space_or_at))
                (Seq (Class (N.eqb full_stop))
                     (Plus (Class not_space_or_at))))).

Definition isValidEmail (email : JsString) : bool := regex_test emailRegex email.

(** A part of an address: not empty, no white space, no [@]. *)
Definition address_part (s : JsString) : Prop :=
  s <> [] /\ Forall (fun c => not_space_or_at c = true) s.

Definition isValidPassword (password : JsString) : bool :=
  (8 <=? length password)%nat.

(** ** The registration and login forms *)

Module RegisterForm.

Record formData := mkFormData {
  username : JsString;
  email : JsString;
  password : JsString;
  confirmPassword : JsString;
  first_name : JsString;
  last_name : JsString
}.

(** [newErrors] as [validateForm] builds it, one field after the other. *)
Definition newErrors (f : formData) : gmap string string :=
  let e0 : gmap string string := ∅ in
  let e1 :=
    if bool_decide (trim (username f) = []) then
      <["username" := "Username is required"]> e0
    else if (length (username f) <? 3)%nat then
      <["username" := "Username must be at least 3 characters"]> e0
    else e0 in
  let e2 :=
    if bool_decide (trim (email f) = []) then
      <["email" := "Email is required"]> e1
    else if negb (isValidEmail (email f)) then
      <["email" := "Please enter a valid email"]> e1
    else e1 in
  let e3 :=
    if bool_decide (password f = []) then
      <["password" := "Password is required"]> e2
    else if negb (isValidPassword (password f)) then
      <["password" := "Password must be at least 8 characters"]> e2
    else e2 in
  let e4 :=
    if bool_decide (confirmPassword f = []) then
      <["confirmPassword" := "Please confirm your password"]> e3
    else if negb (bool_decide (password f = confirmPassword f)) then
      <["confirmPassword" := "Passwords do not match"]> e3
    else e3 in
  e4.

(** [Object.keys(newErrors).length === 0] *)
Definition validateForm (f : formData) : bool :=
  bool_decide (size (newErrors f) = 0%nat).

End RegisterForm.

Module LoginForm.

Record formData := mkFormData {
  username : JsString;
  password : JsString
}.

Definition newErrors (f : formData) : gmap string string :=
  let e0 : gmap string string := ∅ in
  let e1 :=
    if bool_decide (trim (username f) = []) then
      <["username" := "Username is required"]> e0
    else e0 in
  let e2 :=
    if bool_decide (password f = []) then
      <["password" := "Password is required"]> e1
    else e1 in
  e2.

Definition validateForm (f : formData) : bool :=
  bool_decide (size (newErrors f) = 0%nat).

End LoginForm.

(** ** Properties the specification states of the zones and the aggregators *)

(** [a < b], [a <= b] and [a === b] on doubles. *)
Definition less_than (a b : Double.t) : Prop := Double.ltb a b = true.
Definition at_most (a b : Double.t) : Prop := Double.leb a b = true.

(** A value that is not NaN; a sequence free of NaN. *)
Definition is_number (x : Double.t) : Prop := Double.isNaN x = false.
Definition numbers (values : list Double.t) : Prop := Forall is_number values.

Fixpoint strictly_increasing (l : list Double.t) : bool :=
  match l with
  | [] => true
  | x :: rest => forallb (Double.ltb x) rest && strictly_increasing rest
  end.






Local Open Scope Q_scope.

(** ** Properties the specification states of the chart adapters *)

(** The chart point of one day for the heart-rate trend, when the day's
    average heart rate is recorded and [keep] accepts it. *)
Definition heartRate_point (keep : Q -> bool) (metric : DailyMetrics.t)
    : option ChartDataPoint.t :=
  match DailyMetrics.avg_heart_rate metric with
  | Some x =>
      if keep x then Some (ChartDataPoint.mk (DailyMetrics.date metric) x)
      else None
  | None => None
  end.

(** The series as the specification words it: one point for each day
    whose field is present, none for the others, in input order. *)
Definition heartRateData_present (dailyMetrics : list DailyMetrics.t)
    : list ChartDataPoint.t :=
  omap (heartRate_point (fun _ => true)) dailyMetrics.

(** The series with the days whose recorded value is zero left out too. *)
Definition heartRateData_nonzero (dailyMetrics : list DailyMetrics.t)
    : list ChartDataPoint.t :=
  omap (heartRate_point (fun x => negb (Qeq_bool x 0))) dailyMetrics.

(** An optional field [v] shown as [out]: zero when absent, the recorded
    number otherwise. *)
Definition defaulted (v : option Q) (out : Q) : Prop :=
  match v with
  | Some x => out == x
  | None => out = 0
  end.

(** A chart row that shows the workout [w]. *)
Definition row_of (w : Workout.t) (row : WorkoutChartData.t) : Prop :=
  WorkoutChartData.date row = Workout.start_date w
  /\ WorkoutChartData.duration row = Workout.duration w
  /\ WorkoutChartData.activity_type row = Workout.workout_activity_type w
  /\ defaulted (Workout.total_distance w) (WorkoutChartData.distance row)
  /\ defaulted (Workout.total_energy_burned w) (WorkoutChartData.energy row)
  /\ defaulted (Workout.avg_heart_rate w) (WorkoutChartData.heart_rate row)
  /\ defaulted (Workout.trimp_score w) (WorkoutChartData.trimp_score row).

(** ** Properties the specification states of the date ranges and groupers *)

(** The range [r] is the [YYYY-MM-DD] rendering of the calendar dates [s]
    and [e], both real dates, with [s] not after [e]. *)
Definition ordered_range (r : DateRange.t) (s e : Dayjs.t) : Prop :=
  DateRange.start_date r = Dayjs.format_YYYY_MM_DD s
  /\ DateRange.end_date r = Dayjs.format_YYYY_MM_DD e
  /\ Dayjs.valid s /\ Dayjs.valid e /\ Dayjs.le s e.

(** [sum(len(group) for group in result.values())] *)
Definition group_total (groups : gmap string (list Workout.t)) : nat :=
  sum_list_with (fun kv => length kv.2) (map_to_list groups).

(** ** Properties the specification states of the fetchers *)

(** The outcome of a failed fetch of a collection: the call returned
    normally, an error message is set, the held collection is empty and
    the loading flag is cleared. *)
Definition degraded_to_empty {T} (r : HookState (list T) * Eff.completion unit)
    : Prop :=
  r.2 = Eff.Returned tt
  /\ (exists message, error r.1 = Some message)
  /\ data r.1 = []
  /\ loading r.1 = false.

(** The outcome of a failed fetch that leaves the held value [held] in
    place. *)
Definition failed_keeping {D} (held : D) (r : HookState D * Eff.completion unit)
    : Prop :=
  r.2 = Eff.Returned tt
  /\ (exists message, error r.1 = Some message)
  /\ data r.1 = held
  /\ loading r.1 = false.

(** ** Sample entities *)

Definition sample_day (date : string) (avg_heart_rate : option Q)
    : DailyMetrics.t :=
  DailyMetrics.mk 1 (Some 1%Z) date avg_heart_rate None None None
                  (Some 8000) None None None None None.

Definition sample_workout (id : Z) (start_date : string)
    (total_distance total_energy_burned : option Q) : Workout.t :=
  Workout.mk id 1 "running" 30 "min" total_distance None
             total_energy_burned (Some "kcal"%string) "Watch" None None
             start_date start_date start_date None None None.

(** A [dayjs] parser that knows the timestamps of the samples. *)
Definition sample_parse (s : string) : option Dayjs.t :=
  if String.eqb s "2024-03-01T07:00:00Z" then Some (Dayjs.mk 2024 3 1)
  else if String.eqb s "2024-03-01T18:30:00Z" then Some (Dayjs.mk 2024 3 1)
  else if String.eqb s "2024-03-02T07:00:00Z" then Some (Dayjs.mk 2024 3 2)
  else None.

Definition sample_summary : HealthSummary.t :=
  HealthSummary.mk (DateRange.mk "2024-03-03" "2024-03-10")
    (HealthSummary.mk_workout_summary 3 90 12 900 40)
    (HealthSummary.mk_heart_rate_summary 58 171 45)
    (HealthSummary.mk_activity_summary 8000 6 400)
    (HealthSummary.mk_sleep_summary 450 90 7).

(** A back end every request to which is rejected. *)
Definition offline_API : HealthAnalyticsAPI :=
  mkAPI (fun _ => Eff.Rejected "Network Error")
        (fun _ => Eff.Rejected "Network Error")
        (fun _ => Eff.Rejected "Network Error")
        (fun _ => Eff.Rejected "Network Error").

(** * Theorems *)

Local Open Scope Z_scope.

(** ** Heart-rate zones *)

(** The five fractions of the source as doubles: [0x1p-1],
    [0x1.3333333333333p-1], [0x1.6666666666666p-1], [0x1.999999999999ap-1]
    and [0x1.ccccccccccccdp-1]. *)
Example zone_fractions :
  Double.decimal 5 10 = S754_finite false 4503599627370496 (-53)
  /\ Double.decimal 6 10 = S754_finite false 5404319552844595 (-53)
  /\ Double.decimal 7 10 = S754_finite false 6305039478318694 (-53)
  /\ Double.decimal 8 10 = S754_finite false 7205759403792794 (-53)
  /\ Double.decimal 9 10 = S754_finite false 8106479329266893 (-53).
Proof. repeat split; vm_compute; reflexivity. Qed.

(** C1 (as amended): for every positive [maxHR], [calculateHeartRateZones]
    returns exactly five zone descriptors whose threshold percentages are
    50, 60, 70, 80, 90 in strictly increasing order, each with its fixed
    label and colour; labels, percentages and colours do not depend on
    [maxHR].  Each [time] is the double product of [maxHR] and the
    fraction [percentage / 100] rounded to a double first (the literals
    0.5, 0.6, 0.7, 0.8, 0.9 of the source). *)
Theorem calculateHeartRateZones_five_zones (maxHR : Double.t) :
  less_than Double.zero maxHR ->
  let zones := calculateHeartRateZones maxHR in
  length zones = 5%nat
  /\ map HeartRateZoneData.percentage zones = map Double.of_Z [50; 60; 70; 80; 90]
  /\ StronglySorted less_than (map HeartRateZoneData.percentage zones)
  /\ map HeartRateZoneData.zone zones =
       ["Zone 1 (Recovery)"; "Zone 2 (Aerobic)"; "Zone 3 (Threshold)";
        "Zone 4 (VO2 Max)"; "Zone 5 (Anaerobic)"]%string
  /\ map HeartRateZoneData.color zones =
       ["#4FC3F7"; "#81C784"; "#FFB74D"; "#FF8A65"; "#F06292"]%string
  /\ Forall (fun z => HeartRateZoneData.time z
                      = Double.mul maxHR
                          (Double.div (HeartRateZoneData.percentage z) (Double.of_Z 100)))
            zones.
Proof.
  intros _ zones. subst zones. unfold calculateHeartRateZones. cbn [length map].
  repeat split.
  - repeat (constructor; [repeat constructor; reflexivity |]). constructor.
  - repeat constructor; cbn [HeartRateZoneData.time HeartRateZoneData.percentage];
      f_equal; vm_compute; reflexivity.
Qed.

Lemma calculateHeartRateZones_five_zones_witness :
  less_than Double.zero (Double.of_Z 180)
  /\ Forall (fun z => HeartRateZoneData.time z
                      = Double.mul (Double.of_Z 180)
                          (Double.div (HeartRateZoneData.percentage z) (Double.of_Z 100)))
            (calculateHeartRateZones (Double.of_Z 180)).
Proof.
  split; [reflexivity |].
  apply (calculateHeartRateZones_five_zones (Double.of_Z 180)). reflexivity.
Defined.

(** C1 fails as stated: for [maxHR = 180] the zone of 70 percent has
    [time = 180 * 0.7 = 125.99999999999999], below
    [180 * 70 / 100 = 126], and the two are not [===]. *)
Lemma calculateHeartRateZones_time_rounded :
  let maxHR := Double.of_Z 180 in
  exists z, In z (calculateHeartRateZones maxHR)
    /\ HeartRateZoneData.percentage z = Double.of_Z 70
    /\ Double.div (Double.mul maxHR (HeartRateZoneData.percentage z)) (Double.of_Z 100)
       = Double.of_Z 126
    /\ less_than (HeartRateZoneData.time z) (Double.of_Z 126)
    /\ Double.eqb (HeartRateZoneData.time z)
         (Double.div (Double.mul maxHR (HeartRateZoneData.percentage z)) (Double.of_Z 100))
       = false.
Proof.
  eexists. split; [right; right; left; reflexivity |].
  repeat split; vm_compute; reflexivity.
Qed.

(** ** Scalar aggregators *)

(** *** Comparison of doubles and the order of their ranks *)

Lemma lexltb_lexlt p q : lexltb p q = true <-> lexlt p q.
Proof. destruct p as [[p1 p2] p3], q as [[q1 q2] q3]; cbn. lia. Qed.


Lemma ltb_lexlt a b :
  Double.isNaN a = false -> Double.isNaN b = false ->
  match a, b with
  | S754_zero _, S754_zero _ => Double.ltb a b = false
  | _, _ => Double.ltb a b = true <-> lexlt (key 3 a) (key 3 b)
  end.
Proof.
  destruct a as [[]|[]| |[] ma ea], b as [[]|[]| |[] mb eb]; cbn; try discriminate;
    intros _ _; try reflexivity;
    try (split; intros; try reflexivity; try discriminate; lia).
  - unfold Double.ltb, SFltb; cbn.
    change (Pos.compare_cont Eq ma mb) with (ma ?= mb)%positive.
    destruct (Z.compare_spec ea eb), (Pos.compare_spec ma mb); cbn;
      (split; intros; try reflexivity; try discriminate; lia).
  - unfold Double.ltb, SFltb; cbn.
    change (Pos.compare_cont Eq ma mb) with (ma ?= mb)%positive.
    destruct (Z.compare_spec ea eb), (Pos.compare_spec ma mb); cbn;
      (split; intros; try reflexivity; try discriminate; lia).
Qed.

Lemma ltb_lexltb a b :
  Double.isNaN a = false -> Double.isNaN b = false ->
  match a, b with
  | S754_zero _, S754_zero _ => Double.ltb a b = false
  | _, _ => Double.ltb a b = lexltb (key 3 a) (key 3 b)
  end.
Proof.
  intros Ha Hb. pose proof (ltb_lexlt a b Ha Hb) as H.
  destruct a as [[]|[]| |[] ma ea], b as [[]|[]| |[] mb eb]; try exact H;
    (apply eq_true_iff_eq; rewrite lexltb_lexlt; exact H).
Qed.

Lemma key_not_NaN n x : Double.isNaN x = false -> key n x = key 3 x.
Proof. destruct x as [[]|[]| |[] ? ?]; cbn; congruence. Qed.

(** The body of the loop of [Math.max], on an argument that is not NaN,
    is the selection by rank; so is that of [Math.min]. *)
Lemma max_step_spec (highest number : Double.t) :
  Double.isNaN number = false ->
  (let highest :=
     if Double.is_zero_signed false number && Double.is_zero_signed true highest
     then Double.zero else highest in
   if Double.ltb highest number then number else highest)
  = max_step highest number.
Proof.
  intros Hn. unfold max_step.
  destruct (Double.isNaN highest) eqn:Hh.
  - destruct highest; try discriminate.
    destruct number as [[]|[]| |[] ? ?]; try discriminate; reflexivity.
  - pose proof (ltb_lexltb highest number Hh Hn) as H.
    destruct highest as [[]|[]| |[] ma ea], number as [[]|[]| |[] mb eb];
      try discriminate; cbv zeta;
      cbn [Double.is_zero_signed Bool.eqb andb Double.zero];
      try (rewrite H; reflexivity); reflexivity.
Qed.

Lemma min_step_spec (lowest number : Double.t) :
  Double.isNaN number = false ->
  (let lowest :=
     if Double.is_zero_signed true number && Double.is_zero_signed false lowest
     then Double.neg_zero else lowest in
   if Double.ltb number lowest then number else lowest)
  = min_step lowest number.
Proof.
  intros Hn. unfold min_step.
  destruct (Double.isNaN lowest) eqn:Hh.
  - destruct lowest; try discriminate.
    destruct number as [[]|[]| |[] ? ?]; try discriminate; reflexivity.
  - pose proof (ltb_lexltb number lowest Hn Hh) as H.
    rewrite !(key_not_NaN (-3)) by assumption.
    destruct lowest as [[]|[]| |[] ma ea], number as [[]|[]| |[] mb eb];
      try discriminate; cbv zeta;
      cbn [Double.is_zero_signed Bool.eqb andb Double.neg_zero];
      try (rewrite H; reflexivity); reflexivity.
Qed.

Lemma max_step_NaN_r h : max_step h Double.NaN = Double.NaN.
Proof. destruct h as [[]|[]| |[] ? ?]; reflexivity. Qed.
Lemma max_step_NaN_l x : max_step Double.NaN x = Double.NaN.
Proof. destruct x as [[]|[]| |[] ? ?]; reflexivity. Qed.
Lemma min_step_NaN_r h : min_step h Double.NaN = Double.NaN.
Proof. destruct h as [[]|[]| |[] ? ?]; reflexivity. Qed.
Lemma min_step_NaN_l x : min_step Double.NaN x = Double.NaN.
Proof. destruct x as [[]|[]| |[] ? ?]; reflexivity. Qed.

Lemma fold_left_max_step_NaN l : fold_left max_step l Double.NaN = Double.NaN.
Proof. induction l as [|x l IH]; [reflexivity|]. cbn [fold_left]. now rewrite max_step_NaN_l. Qed.
Lemma fold_left_min_step_NaN l : fold_left min_step l Double.NaN = Double.NaN.
Proof. induction l as [|x l IH]; [reflexivity|]. cbn [fold_left]. now rewrite min_step_NaN_l. Qed.

Lemma max_from_fold_left (coerced : list Double.t) :
  forall highest, Double.max_from highest coerced = fold_left max_step coerced highest.
Proof.
  induction coerced as [|number rest IH]; intros highest; [reflexivity|].
  cbn [Double.max_from fold_left].
  destruct (Double.isNaN number) eqn:Hn.
  - destruct number; try discriminate.
    change S754_nan with Double.NaN.
    now rewrite max_step_NaN_r, fold_left_max_step_NaN.
  - rewrite <- (max_step_spec highest number Hn). apply IH.
Qed.

Lemma min_from_fold_left (coerced : list Double.t) :
  forall lowest, Double.min_from lowest coerced = fold_left min_step coerced lowest.
Proof.
  induction coerced as [|number rest IH]; intros lowest; [reflexivity|].
  cbn [Double.min_from fold_left].
  destruct (Double.isNaN number) eqn:Hn.
  - destruct number; try discriminate.
    change S754_nan with Double.NaN.
    now rewrite min_step_NaN_r, fold_left_min_step_NaN.
  - rewrite <- (min_step_spec lowest number Hn). apply IH.
Qed.

(** *** Selection by rank is commutative and associative *)

Section SelectByKey.
Context {A : Type} (k : A -> Z * Z * Z).
Hypothesis k_inj : forall a b, k a = k b -> a = b.

Ltac by_keys :=
  repeat match goal with
  | H : lexltb _ _ = true |- _ => apply lexltb_lexlt in H
  | H : lexltb _ _ = false |- _ => apply not_true_iff_false in H; rewrite lexltb_lexlt in H
  end;
  repeat match goal with
  | |- context [k ?a] => is_var a;
      let ka := fresh "k" a in let K := fresh in
      remember (k a) as ka eqn:K; clear K; destruct ka as [[? ?] ?]
  | H : context [k ?a] |- _ => is_var a;
      let ka := fresh "k" a in let K := fresh in
      remember (k a) as ka eqn:K; clear K; destruct ka as [[? ?] ?]
  end;
  cbn in *.



Lemma select_upper_l (a b : A) : ~ lexlt (k (select k a b)) (k a).
Proof. unfold select. destruct (lexltb (k a) (k b)) eqn:E; by_keys; lia. Qed.

Lemma select_upper_r (a b : A) : ~ lexlt (k (select k a b)) (k b).
Proof. unfold select. destruct (lexltb (k a) (k b)) eqn:E; by_keys; lia. Qed.

Lemma not_lexlt_trans (a b c : A) :
  ~ lexlt (k a) (k b) -> ~ lexlt (k b) (k c) -> ~ lexlt (k a) (k c).
Proof. intros H1 H2. by_keys. lia. Qed.

Lemma fold_left_select_upper (l : list A) :
  forall a z, In z (a :: l) -> ~ lexlt (k (fold_left (select k) l a)) (k z).
Proof.
  induction l as [|x l IH]; intros a z Hin; cbn [fold_left].
  - destruct Hin as [<-|[]]. by_keys. lia.
  - destruct Hin as [<-|[<-|Hin]].
    + apply not_lexlt_trans with (select k a x);
        [apply IH; now left | apply select_upper_l].
    + apply not_lexlt_trans with (select k a x);
        [apply IH; now left | apply select_upper_r].
    + apply IH. now right.
Qed.

End SelectByKey.


Lemma min_step_select a b : min_step a b = select nkey a b.
Proof.
  unfold min_step, select, nkey.
  destruct (key (-3) a) as [[a1 a2] a3], (key (-3) b) as [[b1 b2] b3].
  destruct (lexltb (b1, b2, b3) (a1, a2, a3)) eqn:E1,
           (lexltb (- a1, - a2, - a3) (- b1, - b2, - b3)) eqn:E2; try reflexivity;
    [apply lexltb_lexlt in E1; apply not_true_iff_false in E2;
     rewrite lexltb_lexlt in E2
    |apply lexltb_lexlt in E2; apply not_true_iff_false in E1;
     rewrite lexltb_lexlt in E1];
    cbn in *; exfalso; lia.
Qed.



Lemma max_step_neg_Infinity x : max_step Double.neg_Infinity x = x.
Proof. destruct x as [[]|[]| |[] ? ?]; reflexivity. Qed.
Lemma min_step_Infinity x : min_step Double.Infinity x = x.
Proof. destruct x as [[]|[]| |[] ? ?]; reflexivity. Qed.

(** *** Left folds of an associative and commutative operation with a
    left unit, up to equality *)

Section FoldMonoid.
Context {A : Type} (f : A -> A -> A) (e : A).
Hypothesis f_assoc : forall a b c, f (f a b) c = f a (f b c).
Hypothesis f_comm : forall a b, f a b = f b a.
Hypothesis f_unit : forall a, f e a = a.




End FoldMonoid.

(** *** [Math.max] and [Math.min] as folds of the selection *)

Lemma Math_max_fold (values : list Double.t) :
  Double.Math_max values = fold_left max_step values Double.neg_Infinity.
Proof. apply max_from_fold_left. Qed.
Lemma Math_min_fold (values : list Double.t) :
  Double.Math_min values = fold_left min_step values Double.Infinity.
Proof. apply min_from_fold_left. Qed.



Lemma calculateMax_non_empty (values : list Double.t) :
  values <> [] -> Rounded.calculateMax values = Double.Math_max values.
Proof. now destruct values. Qed.
Lemma calculateMin_non_empty (values : list Double.t) :
  values <> [] -> Rounded.calculateMin values = Double.Math_min values.
Proof. now destruct values. Qed.


(* numbers in, numbers out *)
(** *** No NaN among the values, no NaN as the result *)

Lemma max_step_one_of a b : max_step a b = a \/ max_step a b = b.
Proof. unfold max_step. destruct (lexltb _ _); auto. Qed.
Lemma min_step_one_of a b : min_step a b = a \/ min_step a b = b.
Proof. unfold min_step. destruct (lexltb _ _); auto. Qed.

Lemma fold_left_choice_In {A : Type} (f : A -> A -> A) (l : list A) :
  (forall a b, f a b = a \/ f a b = b) ->
  forall a, In (fold_left f l a) (a :: l).
Proof.
  intros Hf. induction l as [|x l IH]; intros a; cbn [fold_left]; [now left|].
  destruct (IH (f a x)) as [H|H]; [|right; now right].
  rewrite <- H. destruct (Hf a x) as [-> | ->]; [now left|right; now left].
Qed.


Lemma calculateMax_number (values : list Double.t) :
  numbers values -> is_number (Rounded.calculateMax values).
Proof.
  intros Hv. destruct values as [|x l]; [reflexivity|].
  rewrite calculateMax_non_empty by discriminate. rewrite Math_max_fold.
  cbn [fold_left]. rewrite max_step_neg_Infinity.
  apply (proj1 (List.Forall_forall _ _) Hv).
  apply fold_left_choice_In, max_step_one_of.
Qed.
Lemma calculateMin_number (values : list Double.t) :
  numbers values -> is_number (Rounded.calculateMin values).
Proof.
  intros Hv. destruct values as [|x l]; [reflexivity|].
  rewrite calculateMin_non_empty by discriminate. rewrite Math_min_fold.
  cbn [fold_left]. rewrite min_step_Infinity.
  apply (proj1 (List.Forall_forall _ _) Hv).
  apply fold_left_choice_In, min_step_one_of.
Qed.

(** *** The laws of the extrema *)






Local Open Scope Q_scope.

(** ** Chart adapters *)

Lemma heartRateData_filter_map (dailyMetrics : list DailyMetrics.t) :
  DashboardView.heartRateData dailyMetrics = heartRateData_nonzero dailyMetrics.
Proof.
  unfold DashboardView.heartRateData, heartRateData_nonzero.
  induction dailyMetrics as [|m ms IH]; [reflexivity |].
  cbn [List.filter omap list_omap]. unfold heartRate_point at 1.
  destruct (DailyMetrics.avg_heart_rate m) as [x|] eqn:Hm; cbn [Js.truthy].
  - destruct (Qeq_bool x 0); cbn [negb map]; [exact IH |].
    rewrite Hm. cbn [Js.non_null]. now rewrite IH.
  - exact IH.
Qed.

(** C3 (as amended): the heart-rate trend adapter outputs, in input order
    and without sorting, exactly one chart point
    [{date, value = avg_heart_rate}] for each daily-metrics entity whose
    [avg_heart_rate] is present and not zero; it omits the entities whose
    field is absent and also those whose recorded value is zero. *)
Theorem heartRateData_points (dailyMetrics : list DailyMetrics.t) :
  DashboardView.heartRateData dailyMetrics = heartRateData_nonzero dailyMetrics
  /\ forall p : ChartDataPoint.t,
       p ∈ DashboardView.heartRateData dailyMetrics <->
       exists metric x,
         metric ∈ dailyMetrics
         /\ DailyMetrics.avg_heart_rate metric = Some x
         /\ ~ x == 0
         /\ p = ChartDataPoint.mk (DailyMetrics.date metric) x.
Proof.
  split; [apply heartRateData_filter_map |].
  intros p. rewrite heartRateData_filter_map. unfold heartRateData_nonzero.
  rewrite list_elem_of_omap. unfold heartRate_point. split.
  - intros (m & Hin & Hp). destruct (DailyMetrics.avg_heart_rate m) as [x|] eqn:Hm;
      [| discriminate].
    destruct (Qeq_bool x 0) eqn:Hx; [discriminate |]. cbn in Hp.
    exists m, x. split; [assumption |]. split; [assumption |].
    split; [| congruence].
    intros H0. apply Qeq_bool_iff in H0. congruence.
  - intros (m & x & Hin & Hm & Hx & ->). exists m. split; [assumption |].
    rewrite Hm. destruct (Qeq_bool x 0) eqn:Hb; [| reflexivity].
    apply Qeq_bool_iff in Hb. contradiction.
Qed.

(** C3 fails as stated: a day whose average heart rate is recorded as 0
    has its field present, yet the adapter emits no point for it. *)
Lemma heartRateData_drops_recorded_zero :
  let day := sample_day "2024-01-01" (Some 0) in
  DailyMetrics.avg_heart_rate day = Some 0
  /\ heartRateData_present [day] = [ChartDataPoint.mk "2024-01-01" 0]
  /\ DashboardView.heartRateData [day] = []
  /\ DashboardView.heartRateData [day] <> heartRateData_present [day].
Proof. repeat split. discriminate. Qed.

Lemma or_else_defaulted (v : option Q) : defaulted v (Js.or_else v 0).
Proof.
  destruct v as [x|]; cbn; [| reflexivity].
  destruct (Qeq_bool x 0) eqn:Hx; cbn; [| reflexivity].
  symmetry. now apply Qeq_bool_iff.
Qed.

Lemma workoutChartData_same :
  forall workouts,
    WorkoutView.workoutChartData workouts = DashboardView.workoutChartData workouts.
Proof. reflexivity. Qed.

Lemma workoutChartData_Forall2 (workouts : list Workout.t) :
  Forall2 row_of workouts (DashboardView.workoutChartData workouts).
Proof.
  unfold DashboardView.workoutChartData.
  induction workouts as [|w ws IH]; cbn [map]; constructor; [| exact IH].
  unfold row_of; cbn. repeat split; apply or_else_defaulted.
Qed.

(** C5: both workout bar-chart adapters emit exactly one row per input
    workout, in input order, none omitted; each optional numeric field
    (distance, energy, heart rate, training-load score) that is absent
    shows as 0; a workout with [total_distance] null and
    [total_energy_burned] 450 yields a row with distance 0 and energy 450. *)
Theorem workoutChartData_rows (workouts : list Workout.t) :
  let rows := DashboardView.workoutChartData workouts in
  WorkoutView.workoutChartData workouts = rows
  /\ length rows = length workouts
  /\ Forall2 row_of workouts rows
  /\ forall (i : nat) (w : Workout.t),
       workouts !! i = Some w ->
       Workout.total_distance w = None ->
       Workout.total_energy_burned w = Some 450 ->
       exists row,
         rows !! i = Some row
         /\ WorkoutChartData.distance row = 0
         /\ WorkoutChartData.energy row = 450.
Proof.
  intros rows. subst rows. repeat split.
  - unfold DashboardView.workoutChartData. apply length_map.
  - apply workoutChartData_Forall2.
  - intros i w Hi Hd He. unfold DashboardView.workoutChartData.
    rewrite list_lookup_fmap, Hi. cbn. eexists. split; [reflexivity |].
    cbn. now rewrite Hd, He.
Qed.

Lemma workoutChartData_rows_witness :
  let w := sample_workout 7 "2024-03-01T07:00:00Z" None (Some 450) in
  exists row,
    DashboardView.workoutChartData [w] !! 0%nat = Some row
    /\ WorkoutChartData.distance row = 0
    /\ WorkoutChartData.energy row = 450.
Proof.
  intros w.
  apply (workoutChartData_rows [w]) with (w := w); reflexivity.
Defined.

(** ** Date ranges *)

Local Open Scope Z_scope.

Lemma Dayjs_le_refl (d : Dayjs.t) : Dayjs.le d d.
Proof. unfold Dayjs.le. lia. Qed.

Lemma Dayjs_le_trans (a b c : Dayjs.t) :
  Dayjs.le a b -> Dayjs.le b c -> Dayjs.le a c.
Proof. unfold Dayjs.le. lia. Qed.

Lemma Dayjs_leb_le (a b : Dayjs.t) : Dayjs.leb a b = true <-> Dayjs.le a b.
Proof. unfold Dayjs.leb, Dayjs.le. lia. Qed.

Lemma days_in_month_bounds (y m : Z) : 28 <= Dayjs.days_in_month y m <= 31.
Proof.
  unfold Dayjs.days_in_month.
  destruct (m =? 2); [destruct (Dayjs.is_leap y); lia |].
  destruct ((m =? 4) || (m =? 6) || (m =? 9) || (m =? 11)); lia.
Qed.

Lemma prev_day_le (d : Dayjs.t) : Dayjs.le (Dayjs.prev_day d) d.
Proof.
  unfold Dayjs.prev_day, Dayjs.le.
  destruct (Z.ltb_spec 1 (Dayjs.day d)); cbn; [lia |].
  destruct (Z.ltb_spec 1 (Dayjs.month d)); cbn; lia.
Qed.

Lemma next_day_le (d : Dayjs.t) : Dayjs.le d (Dayjs.next_day d).
Proof.
  unfold Dayjs.next_day, Dayjs.le.
  destruct (Z.ltb_spec (Dayjs.day d)
              (Dayjs.days_in_month (Dayjs.year d) (Dayjs.month d))); cbn; [lia |].
  destruct (Z.ltb_spec (Dayjs.month d) 12); cbn; lia.
Qed.

Lemma prev_day_valid (d : Dayjs.t) : Dayjs.valid d -> Dayjs.valid (Dayjs.prev_day d).
Proof.
  unfold Dayjs.valid, Dayjs.prev_day. intros [Hm Hd].
  destruct (Z.ltb_spec 1 (Dayjs.day d)); cbn; [lia |].
  destruct (Z.ltb_spec 1 (Dayjs.month d)); cbn.
  - pose proof (days_in_month_bounds (Dayjs.year d) (Dayjs.month d - 1)). lia.
  - split; [lia |]. change (Dayjs.days_in_month (Dayjs.year d - 1) 12) with 31. lia.
Qed.

Lemma next_day_valid (d : Dayjs.t) : Dayjs.valid d -> Dayjs.valid (Dayjs.next_day d).
Proof.
  unfold Dayjs.valid, Dayjs.next_day. intros [Hm Hd].
  destruct (Z.ltb_spec (Dayjs.day d)
              (Dayjs.days_in_month (Dayjs.year d) (Dayjs.month d))); cbn; [lia |].
  destruct (Z.ltb_spec (Dayjs.month d) 12); cbn.
  - pose proof (days_in_month_bounds (Dayjs.year d) (Dayjs.month d + 1)). lia.
  - split; [lia |]. change (Dayjs.days_in_month (Dayjs.year d + 1) 1) with 31. lia.
Qed.

Lemma add_days_back (n : Z) (d : Dayjs.t) :
  n <= 0 -> Dayjs.le (Dayjs.add_days n d) d.
Proof.
  destruct n as [|p|p]; cbn [Dayjs.add_days]; intros Hn; [apply Dayjs_le_refl | lia |].
  apply Pos.iter_invariant; [| apply Dayjs_le_refl].
  intros x Hx. exact (Dayjs_le_trans _ _ _ (prev_day_le x) Hx).
Qed.

Lemma add_days_forth (n : Z) (d : Dayjs.t) :
  0 <= n -> Dayjs.le d (Dayjs.add_days n d).
Proof.
  destruct n as [|p|p]; cbn [Dayjs.add_days]; intros Hn; [apply Dayjs_le_refl | | lia].
  apply Pos.iter_invariant; [| apply Dayjs_le_refl].
  intros x Hx. exact (Dayjs_le_trans _ _ _ Hx (next_day_le x)).
Qed.

Lemma add_days_valid (n : Z) (d : Dayjs.t) :
  Dayjs.valid d -> Dayjs.valid (Dayjs.add_days n d).
Proof.
  intros Hd. destruct n as [|p|p]; cbn [Dayjs.add_days]; [exact Hd | |];
    apply Pos.iter_invariant; auto using next_day_valid, prev_day_valid.
Qed.

Lemma week_gap_bounds (d : Dayjs.t) : 0 <= Dayjs.week_gap d <= 6.
Proof.
  unfold Dayjs.week_gap, Dayjs.weekday.
  pose proof (Z.mod_pos_bound (Dayjs.day_number d + 4) 7 ltac:(lia)).
  destruct (Z.ltb_spec ((Dayjs.day_number d + 4) mod 7) 0); lia.
Qed.

(** The epoch fell on a Thursday, 2024-03-10 on a Sunday. *)
Lemma weekday_anchors :
  Dayjs.day_number (Dayjs.mk 1970 1 1) = 0
  /\ Dayjs.weekday (Dayjs.mk 1970 1 1) = 4
  /\ Dayjs.weekday (Dayjs.mk 2024 3 10) = 0.
Proof. repeat split. Qed.

Lemma endOf_month_eq (d : Dayjs.t) :
  1 <= Dayjs.month d <= 12 ->
  Dayjs.endOf_month d =
  Dayjs.mk (Dayjs.year d) (Dayjs.month d)
           (Dayjs.days_in_month (Dayjs.year d) (Dayjs.month d)).
Proof.
  intros Hm. unfold Dayjs.endOf_month, Dayjs.prev_day.
  destruct (Z.ltb_spec (Dayjs.month d) 12); cbn.
  - destruct (Z.ltb_spec 1 (Dayjs.month d + 1)); [| lia].
    now replace (Dayjs.month d + 1 - 1) with (Dayjs.month d) by lia.
  - replace (Dayjs.year d + 1 - 1) with (Dayjs.year d) by lia.
    now replace (Dayjs.month d) with 12 by lia.
Qed.

Example getThisWeek_midweek :
  getThisWeek (Dayjs.mk 2024 3 13) = DateRange.mk "2024-03-10" "2024-03-16".
Proof. vm_compute. reflexivity. Qed.

Example getThisMonth_leap_february :
  getThisMonth (Dayjs.mk 2024 2 10) = DateRange.mk "2024-02-01" "2024-02-29".
Proof. vm_compute. reflexivity. Qed.

Example getLastNDays_across_new_year :
  getLastNDays (Dayjs.mk 2024 1 5) 30 = DateRange.mk "2023-12-06" "2024-01-05".
Proof. vm_compute. reflexivity. Qed.

(** C6: on 2024-03-10 the last-7-days selector resolves to
    [{start_date: "2024-03-03", end_date: "2024-03-10"}]; and for every
    "last N days" selector the [end_date] is the current date. *)
Theorem getLastNDays_on_2024_03_10 :
  getLastNDays (Dayjs.mk 2024 3 10) 7 = DateRange.mk "2024-03-03" "2024-03-10"
  /\ getDateRange (Dayjs.mk 2024 3 10) "7days" = DateRange.mk "2024-03-03" "2024-03-10"
  /\ forall (now : Dayjs.t) (N : Z),
       DateRange.end_date (getLastNDays now N) = Dayjs.format_YYYY_MM_DD now.
Proof.
  split; [vm_compute; reflexivity |]. split; [vm_compute; reflexivity |].
  intros now N. reflexivity.
Qed.

(** C10: for every non-negative [N] and every current date, each of
    [getLastNDays N], [getThisWeek] and [getThisMonth] returns the
    [YYYY-MM-DD] renderings of two calendar dates of which the first is
    not after the second. *)
Theorem date_ranges_start_le_end (now : Dayjs.t) (N : Z) :
  Dayjs.valid now ->
  0 <= N ->
  ordered_range (getLastNDays now N) (Dayjs.subtract N now) now
  /\ ordered_range (getThisWeek now) (Dayjs.startOf_week now) (Dayjs.endOf_week now)
  /\ ordered_range (getThisMonth now) (Dayjs.startOf_month now) (Dayjs.endOf_month now).
Proof.
  intros Hnow HN. pose proof (week_gap_bounds now) as Hgap.
  unfold ordered_range.
  split; [| split]; (split; [reflexivity |]); (split; [reflexivity |]).
  - split; [apply add_days_valid, Hnow |]. split; [exact Hnow |].
    apply add_days_back. lia.
  - split; [apply add_days_valid, Hnow |]. split; [apply add_days_valid, Hnow |].
    apply Dayjs_le_trans with now; [apply add_days_back | apply add_days_forth]; lia.
  - destruct Hnow as [Hm Hd].
    pose proof (days_in_month_bounds (Dayjs.year now) (Dayjs.month now)) as Hb.
    rewrite (endOf_month_eq now Hm).
    unfold Dayjs.valid, Dayjs.le, Dayjs.startOf_month. cbn. lia.
Qed.

Lemma date_ranges_start_le_end_witness :
  Dayjs.valid (Dayjs.mk 2024 3 10) /\ 0 <= 90
  /\ ordered_range (getLastNDays (Dayjs.mk 2024 3 10) 90)
                   (Dayjs.subtract 90 (Dayjs.mk 2024 3 10)) (Dayjs.mk 2024 3 10).
Proof.
  assert (Hv : Dayjs.valid (Dayjs.mk 2024 3 10)) by (vm_compute; intuition discriminate).
  assert (HN : 0 <= 90) by lia.
  split; [exact Hv |]. split; [exact HN |].
  exact (proj1 (date_ranges_start_le_end (Dayjs.mk 2024 3 10) 90 Hv HN)).
Defined.

(** ** Grouping by date *)

Lemma group_total_insert_fresh (groups : gmap string (list Workout.t))
    (date : string) (bucket : list Workout.t) :
  groups !! date = None ->
  group_total (<[date := bucket]> groups) = (length bucket + group_total groups)%nat.
Proof.
  intros Hnone. unfold group_total.
  now rewrite (map_to_list_insert groups date bucket Hnone).
Qed.

Lemma group_total_insert_over (groups : gmap string (list Workout.t))
    (date : string) (old bucket : list Workout.t) :
  groups !! date = Some old ->
  (group_total (<[date := bucket]> groups) + length old
   = length bucket + group_total groups)%nat.
Proof.
  intros Hsome.
  rewrite <- (insert_delete_eq groups date bucket).
  rewrite group_total_insert_fresh by apply lookup_delete_eq.
  unfold group_total.
  rewrite <- (map_to_list_delete groups date old Hsome).
  cbn [sum_list_with snd]. lia.
Qed.

Section GroupingProperties.

Variable dayjs_parse : string -> option Dayjs.t.

Lemma groupWorkouts_step_total (groups : gmap string (list Workout.t))
    (workout : Workout.t) :
  group_total (groupWorkouts_step dayjs_parse groups workout)
  = S (group_total groups).
Proof.
  unfold groupWorkouts_step. cbv zeta.
  generalize (formatDate dayjs_parse (Workout.start_date workout)). intros key.
  destruct (groups !! key) as [bucket|] eqn:Hlook.
  - rewrite Hlook.
    pose proof (group_total_insert_over groups key bucket (bucket ++ [workout]) Hlook) as H.
    rewrite length_app in H. cbn in H. lia.
  - rewrite lookup_insert_eq, insert_insert_eq.
    now rewrite group_total_insert_fresh.
Qed.

Lemma fold_groupWorkouts_total (workouts : list Workout.t) :
  forall groups,
    group_total (fold_left (groupWorkouts_step dayjs_parse) workouts groups)
    = (group_total groups + length workouts)%nat.
Proof.
  induction workouts as [|w ws IH]; intros groups; cbn [fold_left length]; [lia |].
  rewrite IH, groupWorkouts_step_total. lia.
Qed.

(** Each group is the input restricted to its date, in input order. *)
Lemma fold_groupWorkouts_lookup (workouts : list Workout.t) (d : string) :
  forall groups,
    fold_left (groupWorkouts_step dayjs_parse) workouts groups !! d
    = match groups !! d,
            filter (fun w => formatDate dayjs_parse (Workout.start_date w) = d) workouts
      with
      | Some bucket, more => Some (bucket ++ more)
      | None, [] => None
      | None, more => Some more
      end.
Proof.
  induction workouts as [|w ws IH]; intros groups; cbn [fold_left].
  - rewrite filter_nil. destruct (groups !! d); [now rewrite app_nil_r | reflexivity].
  - rewrite IH. unfold groupWorkouts_step.
    rewrite filter_cons. cbv zeta.
    generalize (formatDate dayjs_parse (Workout.start_date w)). intros key.
    destruct (decide (key = d)) as [->|Hne].
    + destruct (groups !! d) as [bucket|] eqn:Hlook.
      * rewrite Hlook, lookup_insert_eq. now rewrite <- app_assoc.
      * rewrite lookup_insert_eq, insert_insert_eq, lookup_insert_eq. reflexivity.
    + destruct (groups !! key) as [bucket|] eqn:Hlook.
      * rewrite Hlook. now rewrite lookup_insert_ne.
      * rewrite lookup_insert_eq, insert_insert_eq. now rewrite lookup_insert_ne.
Qed.

(** C7: [groupWorkoutsByDate] preserves the total element count: the sum
    of the lengths of all groups equals the length of the input; and each
    group holds the workouts of its date in input order. *)
Theorem groupWorkoutsByDate_total (workouts : list Workout.t) :
  group_total (groupWorkoutsByDate dayjs_parse workouts) = length workouts
  /\ forall d bucket,
       groupWorkoutsByDate dayjs_parse workouts !! d = Some bucket ->
       bucket = filter (fun w => formatDate dayjs_parse (Workout.start_date w) = d)
                       workouts.
Proof.
  unfold groupWorkoutsByDate. split.
  - rewrite fold_groupWorkouts_total. unfold group_total.
    now rewrite map_to_list_empty.
  - intros d bucket. rewrite fold_groupWorkouts_lookup, lookup_empty.
    destruct (filter _ workouts); congruence.
Qed.

End GroupingProperties.

Lemma fold_groupDailyMetrics_lookup (metrics : list DailyMetrics.t) (d : string) :
  forall groups : gmap string DailyMetrics.t,
    fold_left (fun groups metric => <[DailyMetrics.date metric := metric]> groups)
              metrics groups !! d
    = match last (filter (fun m => DailyMetrics.date m = d) metrics) with
      | Some m => Some m
      | None => groups !! d
      end.
Proof.
  induction metrics as [|m ms IH]; intros groups; cbn [fold_left]; [reflexivity |].
  rewrite IH, filter_cons.
  destruct (decide (DailyMetrics.date m = d)) as [Hd|Hd].
  - rewrite Hd, lookup_insert_eq.
    destruct (filter _ ms) as [|m' rest]; [reflexivity |].
    rewrite last_cons_cons.
    destruct (last (m' :: rest)) eqn:Hl; [reflexivity |].
    apply last_None in Hl. discriminate Hl.
  - now rewrite lookup_insert_ne.
Qed.

(** C8: [groupDailyMetricsByDate] maps each date occurring in the input to
    exactly one entity, the last one in input order that carries that
    date; an earlier entity of the same date is overwritten. *)
Theorem groupDailyMetricsByDate_last_wins (metrics : list DailyMetrics.t) :
  (forall d,
     groupDailyMetricsByDate metrics !! d
     = last (filter (fun m => DailyMetrics.date m = d) metrics))
  /\ (forall m,
        m ∈ metrics ->
        exists kept,
          groupDailyMetricsByDate metrics !! DailyMetrics.date m = Some kept
          /\ DailyMetrics.date kept = DailyMetrics.date m)
  /\ (forall before earlier between later after,
        metrics = before ++ earlier :: between ++ later :: after ->
        DailyMetrics.date earlier = DailyMetrics.date later ->
        Forall (fun m => DailyMetrics.date m <> DailyMetrics.date later) after ->
        groupDailyMetricsByDate metrics !! DailyMetrics.date later = Some later).
Proof.
  assert (Hlook : forall d,
             groupDailyMetricsByDate metrics !! d
             = last (filter (fun m => DailyMetrics.date m = d) metrics)).
  { intros d. unfold groupDailyMetricsByDate.
    rewrite fold_groupDailyMetrics_lookup, lookup_empty.
    now destruct (last _). }
  split; [exact Hlook |]. split.
  - intros m Hin. rewrite Hlook.
    assert (Hf : m ∈ filter (fun m' => DailyMetrics.date m' = DailyMetrics.date m) metrics)
      by (apply list_elem_of_filter; auto).
    destruct (last (filter _ metrics)) as [kept|] eqn:Hl.
    + exists kept. split; [reflexivity |].
      apply last_Some in Hl as [l' Hl'].
      assert (Hk : kept ∈ filter (fun m' => DailyMetrics.date m' = DailyMetrics.date m) metrics)
        by (rewrite Hl'; apply elem_of_app; right; apply list_elem_of_singleton; reflexivity).
      now apply list_elem_of_filter in Hk as [Hk _].
    + apply last_None in Hl. rewrite Hl in Hf. now apply not_elem_of_nil in Hf.
  - intros before earlier between later after -> Hsame Hafter.
    rewrite Hlook.
    replace (before ++ earlier :: between ++ later :: after)
      with ((before ++ earlier :: between) ++ later :: after)
      by now rewrite <- app_assoc.
    rewrite filter_app, filter_cons_True by reflexivity.
    rewrite last_app_cons.
    assert (Hnil : filter (fun m => DailyMetrics.date m = DailyMetrics.date later) after = []).
    { clear -Hafter. induction Hafter as [|m l Hm _ IH]; [reflexivity |].
      now rewrite filter_cons_False. }
    now rewrite Hnil.
Qed.

Local Open Scope Q_scope.

Lemma groupWorkoutsByDate_total_witness :
  let a := sample_workout 1 "2024-03-01T07:00:00Z" (Some 5) (Some 300) in
  let b := sample_workout 2 "2024-03-02T07:00:00Z" None (Some 450) in
  let c := sample_workout 3 "2024-03-01T18:30:00Z" (Some 8) None in
  groupWorkoutsByDate sample_parse [a; b; c] !! "2024-03-01"%string = Some [a; c]
  /\ [a; c] = filter (fun w => formatDate sample_parse (Workout.start_date w)
                                = "2024-03-01"%string) [a; b; c]
  /\ group_total (groupWorkoutsByDate sample_parse [a; b; c]) = 3%nat.
Proof.
  intros a b c.
  assert (Hl : groupWorkoutsByDate sample_parse [a; b; c] !! "2024-03-01"%string
               = Some [a; c]) by (vm_compute; reflexivity).
  split; [exact Hl |].
  split; [exact (proj2 (groupWorkoutsByDate_total sample_parse [a; b; c]) _ _ Hl) |].
  exact (proj1 (groupWorkoutsByDate_total sample_parse [a; b; c])).
Defined.

Lemma groupDailyMetricsByDate_last_wins_witness :
  let first := sample_day "2024-01-01" (Some 61) in
  let other := sample_day "2024-01-02" (Some 64) in
  let second := sample_day "2024-01-01" (Some 72) in
  [first; other; second] = [] ++ first :: [other] ++ second :: []
  /\ DailyMetrics.date first = DailyMetrics.date second
  /\ groupDailyMetricsByDate [first; other; second] !! "2024-01-01"%string = Some second.
Proof.
  intros first other second.
  split; [reflexivity |]. split; [reflexivity |].
  apply (proj2 (proj2 (groupDailyMetricsByDate_last_wins [first; other; second]))
           [] first [other] second []);
    [reflexivity | reflexivity | constructor].
Defined.

(** ** Remote collection fetchers *)

(** Run a fetch body symbolically up to the point where the promise
    settles, then use the hypothesis that says how it settled. *)
Ltac run_fetch :=
  let H := fresh "Hsettled" in
  intros H;
  cbv -[app getWorkouts getDailyMetrics getNightlyMetrics getHealthSummary
        ApiResponse.results];
  rewrite H; reflexivity.

Section FetcherProperties.

Variable API : HealthAnalyticsAPI.

(** A fulfilled request replaces the held collection and clears the
    error. *)
Lemma fetchWorkouts_fulfilled filter response (s : HookState (list Workout.t)) :
  getWorkouts API filter = Eff.Fulfilled response ->
  fetchWorkouts API filter s
  = (mkHookState (ApiResponse.results response) false None (console s),
     Eff.Returned tt).
Proof. run_fetch. Qed.

(** What a failed request leaves behind in a collection fetcher. *)
Lemma fetchWorkouts_rejected filter reason (s : HookState (list Workout.t)) :
  getWorkouts API filter = Eff.Rejected reason ->
  fetchWorkouts API filter s
  = (mkHookState [] false (Some "Failed to fetch workouts"%string)
                 (console s ++ [reason]),
     Eff.Returned tt).
Proof. run_fetch. Qed.

Lemma fetchDailyMetrics_rejected dateRange reason (s : HookState (list DailyMetrics.t)) :
  getDailyMetrics API dateRange = Eff.Rejected reason ->
  fetchDailyMetrics API dateRange s
  = (mkHookState [] false (Some "Failed to fetch daily metrics"%string)
                 (console s ++ [reason]),
     Eff.Returned tt).
Proof. run_fetch. Qed.

Lemma fetchNightlyMetrics_rejected dateRange reason
    (s : HookState (list NightlyMetrics.t)) :
  getNightlyMetrics API dateRange = Eff.Rejected reason ->
  fetchNightlyMetrics API dateRange s
  = (mkHookState [] false (Some "Failed to fetch nightly metrics"%string)
                 (console s ++ [reason]),
     Eff.Returned tt).
Proof. run_fetch. Qed.

End FetcherProperties.

Section FetcherTheorems.

Variable API : HealthAnalyticsAPI.

(** C4: when the underlying request of a collection fetcher
    ([useWorkouts], [useDailyMetrics], [useNightlyMetrics]) fails, the
    fetcher sets a non-null error message, resets the held collection to
    the empty list, clears the loading flag, and completes normally: the
    rejection does not leave the fetcher. *)
Theorem collection_fetchers_degrade_to_empty :
  (forall filter reason s,
     getWorkouts API filter = Eff.Rejected reason ->
     degraded_to_empty (fetchWorkouts API filter s))
  /\ (forall dateRange reason s,
        getDailyMetrics API dateRange = Eff.Rejected reason ->
        degraded_to_empty (fetchDailyMetrics API dateRange s))
  /\ (forall dateRange reason s,
        getNightlyMetrics API dateRange = Eff.Rejected reason ->
        degraded_to_empty (fetchNightlyMetrics API dateRange s)).
Proof.
  split; [| split]; intros q reason s H.
  - rewrite (fetchWorkouts_rejected API q reason s H). repeat split. now eexists.
  - rewrite (fetchDailyMetrics_rejected API q reason s H). repeat split. now eexists.
  - rewrite (fetchNightlyMetrics_rejected API q reason s H). repeat split. now eexists.
Qed.

(** C9: when the request of [useHealthSummary] fails, the hook sets its
    error message and clears the loading flag, and the summary it held
    before is still held afterwards; the collection fetchers, in contrast,
    hold the empty list after a failure. *)
Theorem useHealthSummary_failure_keeps_summary
    (dateRange : DateRange.t) (reason : Eff.JsError)
    (s : HookState (option HealthSummary.t)) :
  DateRange.start_date dateRange <> ""%string ->
  DateRange.end_date dateRange <> ""%string ->
  getHealthSummary API dateRange = Eff.Rejected reason ->
  failed_keeping (data s) (useHealthSummary_effect API dateRange s)
  /\ error (useHealthSummary_effect API dateRange s).1
     = Some "Failed to fetch health summary"%string
  /\ forall filter reason' (w : HookState (list Workout.t)),
       getWorkouts API filter = Eff.Rejected reason' ->
       data (fetchWorkouts API filter w).1 = [].
Proof.
  intros Hs He H.
  assert (Hrun : useHealthSummary_effect API dateRange s
                 = (mkHookState (data s) false
                      (Some "Failed to fetch health summary"%string)
                      (console s ++ [reason]),
                    Eff.Returned tt)).
  { unfold useHealthSummary_effect.
    apply String.eqb_neq in Hs, He. rewrite Hs, He. cbn [negb andb].
    revert H. run_fetch. }
  rewrite Hrun. split; [| split].
  - repeat split. now eexists.
  - reflexivity.
  - intros q r w Hw. now rewrite (fetchWorkouts_rejected API q r w Hw).
Qed.

End FetcherTheorems.

(** The first fetch after mounting, against a back end that is down. *)
Example fetchWorkouts_on_mount_offline :
  fetchWorkouts offline_API None (useState_init [])
  = (mkHookState [] false (Some "Failed to fetch workouts"%string)
                 ["Network Error"%string],
     Eff.Returned tt).
Proof. reflexivity. Qed.

Lemma collection_fetchers_degrade_to_empty_witness :
  let stale :=
    mkHookState [sample_workout 1 "2024-03-01T07:00:00Z" (Some 5) (Some 300)]
                false None [] in
  getWorkouts offline_API None = Eff.Rejected "Network Error"
  /\ degraded_to_empty (fetchWorkouts offline_API None stale).
Proof.
  intros stale. split; [reflexivity |].
  apply (proj1 (collection_fetchers_degrade_to_empty offline_API)
           None "Network Error"%string stale).
  reflexivity.
Defined.

Lemma useHealthSummary_failure_keeps_summary_witness :
  let range := DateRange.mk "2024-03-03" "2024-03-10" in
  let held := mkHookState (Some sample_summary) false None [] in
  getHealthSummary offline_API range = Eff.Rejected "Network Error"
  /\ failed_keeping (Some sample_summary) (useHealthSummary_effect offline_API range held).
Proof.
  intros range held. split; [reflexivity |].
  apply (useHealthSummary_failure_keeps_summary offline_API range
           "Network Error"%string held); [discriminate | discriminate | reflexivity].
Defined.

(** * Further properties of the helpers, the views and the hooks *)

(** ** Extrema *)

Local Open Scope Q_scope.

Lemma Qmax_one_of (a b : Q) : Qmax a b = a \/ Qmax a b = b.
Proof. unfold Qmax, GenericMinMax.gmax. destruct (a ?= b); auto. Qed.

Lemma Qmin_one_of (a b : Q) : Qmin a b = a \/ Qmin a b = b.
Proof. unfold Qmin, GenericMinMax.gmin. destruct (a ?= b); auto. Qed.

Lemma Math_max_In (rest : list Q) : forall x, In (Math_max x rest) (x :: rest).
Proof.
  unfold Math_max. induction rest as [|y rest IH]; intros x; cbn [fold_left].
  - now left.
  - destruct (IH (Qmax x y)) as [H|H].
    + rewrite <- H. destruct (Qmax_one_of x y) as [->| ->]; [now left | right; now left].
    + right. now right.
Qed.

Lemma Math_min_In (rest : list Q) : forall x, In (Math_min x rest) (x :: rest).
Proof.
  unfold Math_min. induction rest as [|y rest IH]; intros x; cbn [fold_left].
  - now left.
  - destruct (IH (Qmin x y)) as [H|H].
    + rewrite <- H. destruct (Qmin_one_of x y) as [->| ->]; [now left | right; now left].
    + right. now right.
Qed.

Lemma Math_max_upper (rest : list Q) :
  forall x z, In z (x :: rest) -> z <= Math_max x rest.
Proof.
  unfold Math_max. induction rest as [|y rest IH]; intros x z Hin; cbn [fold_left].
  - destruct Hin as [->|[]]. apply Qle_refl.
  - destruct Hin as [->|[->|Hin]].
    + apply Qle_trans with (Qmax z y); [apply Q.le_max_l | apply IH; now left].
    + apply Qle_trans with (Qmax x z); [apply Q.le_max_r | apply IH; now left].
    + apply IH. now right.
Qed.

Lemma Math_min_lower (rest : list Q) :
  forall x z, In z (x :: rest) -> Math_min x rest <= z.
Proof.
  unfold Math_min. induction rest as [|y rest IH]; intros x z Hin; cbn [fold_left].
  - destruct Hin as [->|[]]. apply Qle_refl.
  - destruct Hin as [->|[->|Hin]].
    + apply Qle_trans with (Qmin z y); [apply IH; now left | apply Q.le_min_l].
    + apply Qle_trans with (Qmin x z); [apply IH; now left | apply Q.le_min_r].
    + apply IH. now right.
Qed.

(** X1: on a non-empty sequence [calculateMax] returns one of the values,
    and no value exceeds it; [calculateMin] returns one of the values, and
    no value is below it. *)
Theorem calculateMax_calculateMin_attained (values : list Q) :
  values <> [] ->
  (In (calculateMax values) values /\ forall z, In z values -> z <= calculateMax values)
  /\ (In (calculateMin values) values /\ forall z, In z values -> calculateMin values <= z).
Proof.
  destruct values as [|x rest]; [congruence |]. intros _. cbn [calculateMax calculateMin].
  repeat split.
  - apply Math_max_In.
  - apply Math_max_upper.
  - apply Math_min_In.
  - apply Math_min_lower.
Qed.

Lemma calculateMax_calculateMin_attained_witness :
  [72; 58; 64] <> []
  /\ In (calculateMax [72; 58; 64]) [72; 58; 64]
  /\ In (calculateMin [72; 58; 64]) [72; 58; 64].
Proof.
  assert (Hne : [72; 58; 64] <> ([] : list Q)) by discriminate.
  destruct (calculateMax_calculateMin_attained [72; 58; 64] Hne) as [[Hmax _] [Hmin _]].
  repeat split; assumption.
Defined.

Local Open Scope Z_scope.

(** ** Extrema of doubles *)

Lemma leb_negb_ltb (a b : Double.t) :
  is_number a -> is_number b -> Double.leb a b = negb (Double.ltb b a).
Proof.
  unfold is_number, Double.leb, Double.ltb, SFleb, SFltb.
  destruct a as [[]|[]| |[] ma ea], b as [[]|[]| |[] mb eb]; cbn;
    try discriminate; intros _ _; try reflexivity;
    change (Pos.compare_cont Eq ma mb) with (ma ?= mb)%positive;
    change (Pos.compare_cont Eq mb ma) with (mb ?= ma)%positive;
    rewrite (Z.compare_antisym ea eb), (Pos.compare_antisym ma mb);
    destruct (ea ?= eb), (ma ?= mb)%positive; reflexivity.
Qed.

Lemma fold_left_min_step_select (l : list Double.t) :
  forall a, fold_left min_step l a = fold_left (select nkey) l a.
Proof.
  induction l as [|x l IH]; intros a; cbn [fold_left]; [reflexivity |].
  now rewrite IH, min_step_select.
Qed.

Lemma less_than_lexlt (a b : Double.t) :
  is_number a -> is_number b -> less_than a b -> lexlt (key 3 a) (key 3 b).
Proof.
  intros Ha Hb Hlt. pose proof (ltb_lexlt a b Ha Hb) as H. unfold less_than in Hlt.
  destruct a as [[]|[]| |[] ma ea], b as [[]|[]| |[] mb eb];
    try (apply H, Hlt); congruence.
Qed.

Lemma nkey_lexlt (a b : Double.t) :
  is_number a -> is_number b ->
  lexlt (key 3 a) (key 3 b) -> lexlt (nkey b) (nkey a).
Proof.
  intros Ha Hb. unfold nkey. rewrite !(key_not_NaN (-3)) by assumption.
  destruct (key 3 a) as [[a1 a2] a3], (key 3 b) as [[b1 b2] b3]. cbn. lia.
Qed.

(** X28: on a non-empty sequence of doubles none of which is NaN,
    [calculateMax] returns one of the values and every value is [<=] it;
    [calculateMin] returns one of the values and it is [<=] every value
    (so [-0] and [+0], which are [===], are told apart only by which of
    them is returned). *)
Theorem extrema_of_doubles_attained (values : list Double.t) :
  values <> [] ->
  numbers values ->
  (In (Rounded.calculateMax values) values
   /\ forall z, In z values -> at_most z (Rounded.calculateMax values))
  /\ (In (Rounded.calculateMin values) values
      /\ forall z, In z values -> at_most (Rounded.calculateMin values) z).
Proof.
  intros Hne Hn.
  pose proof (calculateMax_number values Hn) as Hmax.
  pose proof (calculateMin_number values Hn) as Hmin.
  rewrite calculateMax_non_empty in * by assumption.
  rewrite calculateMin_non_empty in * by assumption.
  rewrite Math_max_fold in *. rewrite Math_min_fold in *.
  destruct values as [|x l]; [congruence |]. cbn [fold_left] in *.
  rewrite max_step_neg_Infinity in *. rewrite min_step_Infinity in *.
  assert (Hz : forall z, In z (x :: l) -> is_number z)
    by (intros z; apply (proj1 (List.Forall_forall _ _) Hn)).
  repeat split.
  - apply fold_left_choice_In, max_step_one_of.
  - intros z Hin. unfold at_most. rewrite leb_negb_ltb by auto.
    destruct (Double.ltb _ z) eqn:E; [exfalso | reflexivity].
    apply (fold_left_select_upper (key 3) l x z Hin).
    apply less_than_lexlt; auto.
  - apply fold_left_choice_In, min_step_one_of.
  - intros z Hin. unfold at_most. rewrite leb_negb_ltb by auto.
    destruct (Double.ltb z _) eqn:E; [exfalso | reflexivity].
    rewrite fold_left_min_step_select in *.
    apply (fold_left_select_upper nkey l x z Hin).
    apply nkey_lexlt, less_than_lexlt; auto.
Qed.

Lemma extrema_of_doubles_attained_witness :
  let values := [Double.decimal 613 10; Double.decimal 589 10; Double.decimal 640 10] in
  values <> [] /\ numbers values
  /\ Rounded.calculateMax values = Double.decimal 640 10
  /\ at_most (Double.decimal 613 10) (Rounded.calculateMax values).
Proof.
  intros values.
  assert (Hne : values <> []) by discriminate.
  assert (Hn : numbers values) by (repeat constructor).
  destruct (extrema_of_doubles_attained values Hne Hn) as [[_ Hup] _].
  split; [exact Hne |]. split; [exact Hn |]. split; [reflexivity |].
  apply Hup. now left.
Defined.

(** ** Heart-rate zones *)

Lemma strictly_increasing_sorted (l : list Double.t) :
  strictly_increasing l = true -> StronglySorted less_than l.
Proof.
  induction l as [|x l IH]; cbn [strictly_increasing]; [constructor |].
  intros [Hx Hl]%andb_prop. constructor; [now apply IH |].
  apply List.Forall_forall. intros y Hy. exact (proj1 (forallb_forall _ _) Hx y Hy).
Qed.

(** The check of the three facts, run on each of the 300 inputs. *)
Lemma thresholds_checked :
  forallb (fun n =>
             let maxHR := Double.of_Z (Z.of_nat n) in
             let times := map HeartRateZoneData.time (calculateHeartRateZones maxHR) in
             (length times =? 5)%nat && strictly_increasing times
             && forallb (fun t => Double.leb (Double.div maxHR (Double.of_Z 2)) t
                                  && Double.ltb t maxHR) times)
          (seq 1 300) = true.
Proof. vm_compute. reflexivity. Qed.

(** X4: for every whole-number maximum heart rate from 1 to 300 beats per
    minute there are five zone thresholds, and as computed in double
    arithmetic they are strictly increasing, start at no less than half of
    [maxHR] and stay below [maxHR]. *)
Theorem calculateHeartRateZones_thresholds (bpm : Z) :
  1 <= bpm <= 300 ->
  let maxHR := Double.of_Z bpm in
  let times := map HeartRateZoneData.time (calculateHeartRateZones maxHR) in
  length times = 5%nat
  /\ StronglySorted less_than times
  /\ Forall (fun t => at_most (Double.div maxHR (Double.of_Z 2)) t /\ less_than t maxHR)
            times.
Proof.
  intros Hb maxHR times.
  pose proof (proj1 (forallb_forall _ _) thresholds_checked (Z.to_nat bpm)) as H.
  cbv beta zeta in H. rewrite Z2Nat.id in H by lia. fold maxHR in H. fold times in H.
  destruct (andb_prop _ _ (H ltac:(apply in_seq; lia))) as [[Hlen Hinc]%andb_prop Hall].
  split; [now apply Nat.eqb_eq |]. split; [now apply strictly_increasing_sorted |].
  apply List.Forall_forall. intros t Ht.
  exact (andb_prop _ _ (proj1 (forallb_forall _ _) Hall t Ht)).
Qed.

Lemma calculateHeartRateZones_thresholds_witness :
  1 <= 190 <= 300
  /\ StronglySorted less_than
       (map HeartRateZoneData.time (calculateHeartRateZones (Double.of_Z 190))).
Proof.
  assert (Hb : 1 <= 190 <= 300) by lia.
  split; [exact Hb |]. exact (proj1 (proj2 (calculateHeartRateZones_thresholds 190 Hb))).
Defined.

Local Open Scope Q_scope.

(** ** Dashboard: charts and summary cards *)

Lemma filter_truthy_map {A B : Type} (get : A -> option Q) (point : A -> Q -> B)
    (l : list A) :
  map (fun m => point m (Js.non_null (get m)))
      (List.filter (fun m => Js.truthy (get m)) l)
  = omap (fun m => match get m with
                   | Some x => if Qeq_bool x 0 then None else Some (point m x)
                   | None => None
                   end) l.
Proof.
  induction l as [|m l IH]; [reflexivity |].
  cbn [List.filter omap list_omap].
  destruct (get m) as [x|] eqn:Hm; cbn [Js.truthy]; [| exact IH].
  destruct (Qeq_bool x 0); cbn [negb map]; [exact IH |].
  rewrite Hm. cbn [Js.non_null]. now rewrite IH.
Qed.

Lemma elem_of_filter_truthy_map {A B : Type} (get : A -> option Q)
    (point : A -> Q -> B) (l : list A) (p : B) :
  p ∈ map (fun m => point m (Js.non_null (get m)))
          (List.filter (fun m => Js.truthy (get m)) l)
  <-> exists m x, m ∈ l /\ get m = Some x /\ ~ x == 0 /\ p = point m x.
Proof.
  rewrite filter_truthy_map, list_elem_of_omap. split.
  - intros (m & Hin & Hp). destruct (get m) as [x|] eqn:Hm; [| discriminate].
    destruct (Qeq_bool x 0) eqn:Hx; [discriminate |].
    exists m, x. split; [assumption |]. split; [assumption |].
    split; [| congruence].
    intros H0. apply Qeq_bool_iff in H0. congruence.
  - intros (m & x & Hin & Hm & Hx & ->). exists m. split; [assumption |].
    rewrite Hm. destruct (Qeq_bool x 0) eqn:Hb; [| reflexivity].
    apply Qeq_bool_iff in Hb. contradiction.
Qed.

Lemma filter_sublist {A : Type} (f : A -> bool) (l : list A) :
  sublist (List.filter f l) l.
Proof.
  induction l as [|x l IH]; cbn [List.filter]; [constructor |].
  destruct (f x); now constructor.
Qed.

(** X5: the step-count chart has exactly one point per day whose step
    count is present and not zero (a day with 0 recorded steps is left
    out), and the sleep chart one point per night whose sleep duration is
    present and not zero, with the minutes converted to hours; both keep
    the input order. *)
Theorem stepCountData_sleepData_points
    (dailyMetrics : list DailyMetrics.t) (nightlyMetrics : list NightlyMetrics.t) :
  (forall p : ChartDataPoint.t,
     p ∈ DashboardView.stepCountData dailyMetrics <->
     exists m x, m ∈ dailyMetrics /\ DailyMetrics.step_count m = Some x /\ ~ x == 0
                 /\ p = ChartDataPoint.mk (DailyMetrics.date m) x)
  /\ (forall p : ChartDataPoint.t,
        p ∈ DashboardView.sleepData nightlyMetrics <->
        exists m x, m ∈ nightlyMetrics /\ NightlyMetrics.sleep_duration m = Some x
                    /\ ~ x == 0
                    /\ p = ChartDataPoint.mk (NightlyMetrics.date m) (x / 60))
  /\ sublist (map ChartDataPoint.date (DashboardView.stepCountData dailyMetrics))
             (map DailyMetrics.date dailyMetrics)
  /\ sublist (map ChartDataPoint.date (DashboardView.sleepData nightlyMetrics))
             (map NightlyMetrics.date nightlyMetrics).
Proof.
  split; [| split; [| split]].
  - intros p. apply (elem_of_filter_truthy_map DailyMetrics.step_count
                       (fun m x => ChartDataPoint.mk (DailyMetrics.date m) x)).
  - intros p. apply (elem_of_filter_truthy_map NightlyMetrics.sleep_duration
                       (fun m x => ChartDataPoint.mk (NightlyMetrics.date m) (x / 60))).
  - unfold DashboardView.stepCountData. rewrite map_map. cbn [ChartDataPoint.date].
    apply (fmap_sublist DailyMetrics.date), filter_sublist.
  - unfold DashboardView.sleepData. rewrite map_map. cbn [ChartDataPoint.date].
    apply (fmap_sublist NightlyMetrics.date), filter_sublist.
Qed.

(** Left folds of an operation that respects [==] and is associative. *)
Section FoldAC.

Variable f : Q -> Q -> Q.
Hypothesis f_compat : Proper (Qeq ==> Qeq ==> Qeq) f.
Hypothesis f_assoc : forall a b c, f a (f b c) == f (f a b) c.

Lemma fold_left_compat (l : list Q) (a b : Q) :
  a == b -> fold_left f l a == fold_left f l b.
Proof.
  revert a b. induction l as [|x l IH]; intros a b Hab; cbn; [exact Hab |].
  apply IH. now rewrite Hab.
Qed.

Lemma fold_left_init (l : list Q) (a b : Q) :
  fold_left f l (f a b) == f a (fold_left f l b).
Proof.
  revert b. induction l as [|x l IH]; intros b; cbn; [reflexivity |].
  rewrite <- IH. apply fold_left_compat. symmetry. apply f_assoc.
Qed.

End FoldAC.

Lemma Qplus_assoc' (a b c : Q) : a + (b + c) == a + b + c.
Proof. ring. Qed.

Lemma reduce_sum_app (xs ys : list Q) :
  reduce_sum (xs ++ ys) == reduce_sum xs + reduce_sum ys.
Proof.
  unfold reduce_sum. rewrite fold_left_app.
  rewrite <- (fold_left_init Qplus Qplus_comp Qplus_assoc' ys (fold_left Qplus xs 0) 0).
  apply (fold_left_compat Qplus Qplus_comp). ring.
Qed.

Lemma reduce_sum_cons (x : Q) (l : list Q) : reduce_sum (x :: l) == x + reduce_sum l.
Proof.
  change (x :: l) with ([x] ++ l). rewrite reduce_sum_app.
  unfold reduce_sum at 1. cbn [fold_left]. ring.
Qed.

Lemma fold_left_Qplus_with {A : Type} (term : A -> Q) (l : list A) :
  forall a, fold_left (fun sum m => sum + term m) l a == a + reduce_sum (map term l).
Proof.
  induction l as [|m l IH]; intros a; cbn [fold_left map].
  - unfold reduce_sum. cbn. ring.
  - rewrite IH, reduce_sum_cons. ring.
Qed.

Lemma or_else_zero_eq (v : option Q) :
  Js.or_else v 0 == if Js.truthy v then Js.non_null v else 0.
Proof. destruct v as [x|]; cbn; [| reflexivity]. now destruct (Qeq_bool x 0). Qed.

Lemma reduce_sum_truthy {A : Type} (get : A -> option Q) (l : list A) :
  reduce_sum (map (fun m => Js.or_else (get m) 0) l)
  == reduce_sum (map (fun m => Js.non_null (get m))
                     (List.filter (fun m => Js.truthy (get m)) l)).
Proof.
  induction l as [|m l IH]; [reflexivity |].
  cbn [map List.filter]. rewrite reduce_sum_cons, or_else_zero_eq, IH.
  destruct (Js.truthy (get m)); cbn [map]; [now rewrite reduce_sum_cons | ring].
Qed.

(** X6: the "Total Steps" card is the sum of the values plotted by the
    step-count chart (days without a count, or with a count of 0, add
    nothing), and the total workout time is the sum of the durations of
    the rows of the workout chart. *)
Theorem totals_agree_with_charts
    (dailyMetrics : list DailyMetrics.t) (workouts : list Workout.t) :
  DashboardView.totalSteps dailyMetrics
  == calculateSum (map ChartDataPoint.value (DashboardView.stepCountData dailyMetrics))
  /\ DashboardView.totalWorkoutTime workouts
     == calculateSum (map WorkoutChartData.duration
                          (DashboardView.workoutChartData workouts))
  /\ DashboardView.totalWorkouts workouts
     = length (DashboardView.workoutChartData workouts).
Proof.
  split; [| split].
  - unfold DashboardView.totalSteps, DashboardView.stepCountData, calculateSum.
    rewrite (fold_left_Qplus_with (fun m => Js.or_else (DailyMetrics.step_count m) 0)).
    rewrite map_map. cbn [ChartDataPoint.value].
    rewrite (reduce_sum_truthy DailyMetrics.step_count). ring.
  - unfold DashboardView.totalWorkoutTime, DashboardView.workoutChartData, calculateSum.
    rewrite (fold_left_Qplus_with Workout.duration), map_map, Qplus_0_l.
    reflexivity.
  - unfold DashboardView.totalWorkouts, DashboardView.workoutChartData.
    now rewrite length_map.
Qed.



(** ** Workout view: the energy chart *)

Lemma filter_map_comm {A B : Type} (f : A -> B) (p : B -> bool) (l : list A) :
  List.filter p (map f l) = map f (List.filter (fun a => p (f a)) l).
Proof.
  induction l as [|a l IH]; [reflexivity |].
  cbn [map List.filter]. destruct (p (f a)); cbn [map]; now rewrite IH.
Qed.

(** X8: the "Energy Burned" chart shows, in input order, exactly the rows
    of the workouts whose energy is present and positive; workouts with no
    energy, with energy 0 or with a negative energy get no bar. *)
Theorem energyChartData_rows (workouts : list Workout.t) :
  WorkoutView.energyChartData workouts
  = WorkoutView.workoutChartData
      (List.filter (fun w => match Workout.total_energy_burned w with
                             | Some e => negb (Qle_bool e 0)
                             | None => false
                             end) workouts)
  /\ forall row, row ∈ WorkoutView.energyChartData workouts ->
                 0 < WorkoutChartData.energy row.
Proof.
  assert (Heq : WorkoutView.energyChartData workouts
                = WorkoutView.workoutChartData
                    (List.filter (fun w => match Workout.total_energy_burned w with
                                           | Some e => negb (Qle_bool e 0)
                                           | None => false
                                           end) workouts)).
  { unfold WorkoutView.energyChartData, WorkoutView.workoutChartData.
    rewrite filter_map_comm. f_equal. cbn [WorkoutChartData.energy].
    induction workouts as [|w ws IH]; [reflexivity |]. cbn [List.filter].
    rewrite IH.
    destruct (Workout.total_energy_burned w) as [e|]; cbn; [| reflexivity].
    destruct (Qeq_bool e 0) eqn:He0; cbn; [| reflexivity].
    apply Qeq_bool_iff in He0.
    assert (Hle : Qle_bool e 0 = true) by (apply Qle_bool_iff; lra).
    now rewrite Hle. }
  split; [exact Heq |].
  intros row Hin. unfold WorkoutView.energyChartData in Hin.
  apply list_elem_of_In, filter_In in Hin as [_ Hpos].
  apply negb_true_iff in Hpos.
  destruct (Qlt_le_dec 0 (WorkoutChartData.energy row)) as [Hlt|Hle]; [exact Hlt |].
  apply Qle_bool_iff in Hle. congruence.
Qed.

Lemma energyChartData_rows_witness :
  let burned := sample_workout 1 "2024-03-01T07:00:00Z" None (Some 450%Q) in
  let unknown := sample_workout 2 "2024-03-02T07:00:00Z" None None in
  WorkoutView.energyChartData [unknown; burned] = WorkoutView.workoutChartData [burned]
  /\ (0 < 450)%Q.
Proof.
  intros burned unknown.
  destruct (energyChartData_rows [unknown; burned]) as [Heq Hpos].
  split; [exact Heq |].
  apply (Hpos (WorkoutChartData.mk "2024-03-01T07:00:00Z" 30 0 450 0 0 "running")).
  rewrite Heq. apply list_elem_of_singleton. reflexivity.
Defined.

(** ** The calendar behind the date ranges *)

Local Open Scope Z_scope.

Lemma next_prev_day (d : Dayjs.t) : Dayjs.valid d -> Dayjs.next_day (Dayjs.prev_day d) = d.
Proof.
  destruct d as [y m dd]. unfold Dayjs.valid, Dayjs.prev_day, Dayjs.next_day. cbn.
  intros [Hm Hd].
  destruct (Z.ltb_spec 1 dd); cbn.
  - destruct (Z.ltb_spec (dd - 1) (Dayjs.days_in_month y m)); [| lia].
    f_equal. lia.
  - destruct (Z.ltb_spec 1 m); cbn.
    + rewrite Z.ltb_irrefl. destruct (Z.ltb_spec (m - 1) 12); [| lia].
      f_equal; lia.
    + change (Dayjs.days_in_month (y - 1) 12) with 31. cbn.
      f_equal; lia.
Qed.

Lemma prev_next_day (d : Dayjs.t) : Dayjs.valid d -> Dayjs.prev_day (Dayjs.next_day d) = d.
Proof.
  destruct d as [y m dd]. unfold Dayjs.valid, Dayjs.prev_day, Dayjs.next_day. cbn.
  intros [Hm Hd].
  destruct (Z.ltb_spec dd (Dayjs.days_in_month y m)); cbn.
  - destruct (Z.ltb_spec 1 (dd + 1)); [| lia]. f_equal. lia.
  - destruct (Z.ltb_spec m 12); cbn.
    + destruct (Z.ltb_spec 1 (m + 1)); [| lia].
      replace (m + 1 - 1) with m by lia. f_equal. lia.
    + replace (y + 1 - 1) with y by lia. replace m with 12 in * by lia.
      change (Dayjs.days_in_month y 12) with 31 in *. f_equal; lia.
Qed.



Ltac lia_div := Z.to_euclidean_division_equations; lia.

(** Evaluate the closed integer tests and sums left behind once the month
    is a literal. *)
Ltac eval_closed :=
  repeat match goal with
    | |- context [Z.sub (Zpos ?a) (Zpos ?b)] =>
        let c := eval vm_compute in (Z.sub (Zpos a) (Zpos b)) in
        change (Z.sub (Zpos a) (Zpos b)) with c
    | |- context [Z.add (Zpos ?a) (Zpos ?b)] =>
        let c := eval vm_compute in (Z.add (Zpos a) (Zpos b)) in
        change (Z.add (Zpos a) (Zpos b)) with c
    | |- context [Z.mul (Zpos ?a) (Zpos ?b)] =>
        let c := eval vm_compute in (Z.mul (Zpos a) (Zpos b)) in
        change (Z.mul (Zpos a) (Zpos b)) with c
    | |- context [Z.modulo (Zpos ?a) (Zpos ?b)] =>
        let c := eval vm_compute in (Z.modulo (Zpos a) (Zpos b)) in
        change (Z.modulo (Zpos a) (Zpos b)) with c
    | |- context [Z.modulo Z0 (Zpos ?b)] => change (Z.modulo Z0 (Zpos b)) with Z0
    | |- context [Z.mul (Zpos ?a) Z0] => change (Z.mul (Zpos a) Z0) with Z0
    | |- context [Z.add Z0 (Zpos ?b)] => change (Z.add Z0 (Zpos b)) with (Zpos b)
    | |- context [Z.div (Zpos ?a) (Zpos ?b)] =>
        let c := eval vm_compute in (Z.div (Zpos a) (Zpos b)) in
        change (Z.div (Zpos a) (Zpos b)) with c
    | |- context [Z.leb (Zpos ?a) (Zpos ?b)] =>
        let c := eval vm_compute in (Z.leb (Zpos a) (Zpos b)) in
        change (Z.leb (Zpos a) (Zpos b)) with c
    | |- context [Z.eqb (Zpos ?a) (Zpos ?b)] =>
        let c := eval vm_compute in (Z.eqb (Zpos a) (Zpos b)) in
        change (Z.eqb (Zpos a) (Zpos b)) with c
    end;
  cbv beta iota delta [orb andb negb].

Lemma day_number_prev_day (d : Dayjs.t) :
  Dayjs.valid d -> Dayjs.day_number (Dayjs.prev_day d) = Dayjs.day_number d - 1.
Proof.
  destruct d as [y m dd]. unfold Dayjs.valid, Dayjs.prev_day.
  cbn [Dayjs.year Dayjs.month Dayjs.day]. intros [Hm Hd].
  destruct (Z.ltb_spec 1 dd).
  - unfold Dayjs.day_number. cbn [Dayjs.year Dayjs.month Dayjs.day]. lia.
  - assert (dd = 1) by lia. subst dd.
    assert (Hcases : m = 1 \/ m = 2 \/ m = 3 \/ m = 4 \/ m = 5 \/ m = 6 \/ m = 7
                     \/ m = 8 \/ m = 9 \/ m = 10 \/ m = 11 \/ m = 12) by lia.
    clear Hm Hd H.
    destruct Hcases as [->|[->|[->|[->|[->|[->|[->|[->|[->|[->|[->| ->]]]]]]]]]]];
      unfold Dayjs.day_number, Dayjs.days_in_month, Dayjs.is_leap;
      cbn [Z.ltb Z.compare Pos.compare Pos.compare_cont Dayjs.year Dayjs.month Dayjs.day];
      eval_closed; try lia.
    destruct (Z.eqb_spec (y mod 4) 0);
      [destruct (Z.eqb_spec (y mod 100) 0); [destruct (Z.eqb_spec (y mod 400) 0) |] |];
      lia_div.
Qed.

Lemma day_number_next_day (d : Dayjs.t) :
  Dayjs.valid d -> Dayjs.day_number (Dayjs.next_day d) = Dayjs.day_number d + 1.
Proof.
  intros Hd. pose proof (day_number_prev_day _ (next_day_valid d Hd)) as H.
  rewrite (prev_next_day d Hd) in H. lia.
Qed.

Lemma iter_prev_day_valid (p : positive) (d : Dayjs.t) :
  Dayjs.valid d -> Dayjs.valid (Pos.iter Dayjs.prev_day d p).
Proof. intros Hd. apply Pos.iter_invariant; auto using prev_day_valid. Qed.

Lemma iter_next_day_valid (p : positive) (d : Dayjs.t) :
  Dayjs.valid d -> Dayjs.valid (Pos.iter Dayjs.next_day d p).
Proof. intros Hd. apply Pos.iter_invariant; auto using next_day_valid. Qed.

Lemma iter_next_prev_day (p : positive) :
  forall d, Dayjs.valid d ->
            Pos.iter Dayjs.next_day (Pos.iter Dayjs.prev_day d p) p = d.
Proof.
  induction p as [|p IH] using Pos.peano_ind; intros d Hd.
  - cbn. now apply next_prev_day.
  - rewrite !Pos.iter_succ.
    rewrite <- (Pos.iter_swap p _ Dayjs.next_day).
    rewrite next_prev_day by now apply iter_prev_day_valid.
    now apply IH.
Qed.

Lemma iter_prev_next_day (p : positive) :
  forall d, Dayjs.valid d ->
            Pos.iter Dayjs.prev_day (Pos.iter Dayjs.next_day d p) p = d.
Proof.
  induction p as [|p IH] using Pos.peano_ind; intros d Hd.
  - cbn. now apply prev_next_day.
  - rewrite !Pos.iter_succ.
    rewrite <- (Pos.iter_swap p _ Dayjs.prev_day).
    rewrite prev_next_day by now apply iter_next_day_valid.
    now apply IH.
Qed.

Lemma add_days_opp (n : Z) (d : Dayjs.t) :
  Dayjs.valid d -> Dayjs.add_days (- n) (Dayjs.add_days n d) = d.
Proof.
  intros Hd. destruct n as [|p|p]; cbn [Dayjs.add_days Z.opp]; [reflexivity | |].
  - now apply iter_prev_next_day.
  - now apply iter_next_prev_day.
Qed.

Lemma day_number_add_days (n : Z) (d : Dayjs.t) :
  Dayjs.valid d -> Dayjs.day_number (Dayjs.add_days n d) = Dayjs.day_number d + n.
Proof.
  intros Hd. destruct n as [|p|p]; cbn [Dayjs.add_days]; [lia | |].
  - induction p as [|p IH] using Pos.peano_ind.
    + cbn. rewrite day_number_next_day by assumption. lia.
    + rewrite Pos.iter_succ, day_number_next_day by now apply iter_next_day_valid.
      lia.
  - induction p as [|p IH] using Pos.peano_ind.
    + cbn. rewrite day_number_prev_day by assumption. lia.
    + rewrite Pos.iter_succ, day_number_prev_day by now apply iter_prev_day_valid.
      lia.
Qed.

(** ** Date ranges: what each window covers *)

Lemma getLastNDays_ordered (now : Dayjs.t) (N : Z) :
  Dayjs.valid now -> 0 <= N ->
  ordered_range (getLastNDays now N) (Dayjs.subtract N now) now.
Proof.
  intros Hnow HN. unfold ordered_range.
  split; [reflexivity |]. split; [reflexivity |].
  split; [apply add_days_valid, Hnow |]. split; [exact Hnow |].
  apply add_days_back. lia.
Qed.

Lemma getThisWeek_ordered (now : Dayjs.t) :
  Dayjs.valid now ->
  ordered_range (getThisWeek now) (Dayjs.startOf_week now) (Dayjs.endOf_week now).
Proof.
  intros Hnow. pose proof (week_gap_bounds now) as Hgap.
  unfold ordered_range. split; [reflexivity |]. split; [reflexivity |].
  split; [apply add_days_valid, Hnow |]. split; [apply add_days_valid, Hnow |].
  apply Dayjs_le_trans with now; [apply add_days_back | apply add_days_forth]; lia.
Qed.

Lemma getThisMonth_ordered (now : Dayjs.t) :
  Dayjs.valid now ->
  ordered_range (getThisMonth now) (Dayjs.startOf_month now) (Dayjs.endOf_month now).
Proof.
  intros [Hm Hd].
  pose proof (days_in_month_bounds (Dayjs.year now) (Dayjs.month now)) as Hb.
  unfold ordered_range. split; [reflexivity |]. split; [reflexivity |].
  rewrite (endOf_month_eq now Hm).
  unfold Dayjs.valid, Dayjs.le, Dayjs.startOf_month. cbn. lia.
Qed.

(** X9: the "last N days" window runs from the day [N] days before today
    to today: its end is the rendering of today and its start the
    rendering of the real date [s] such that adding [N] days to [s] gives
    today back and whose day number is [N] below today's; for [N = 0]
    both ends are today. *)
Theorem getLastNDays_window (now : Dayjs.t) (N : Z) :
  Dayjs.valid now ->
  0 <= N ->
  let s := Dayjs.subtract N now in
  getLastNDays now N
  = DateRange.mk (Dayjs.format_YYYY_MM_DD s) (Dayjs.format_YYYY_MM_DD now)
  /\ Dayjs.valid s
  /\ Dayjs.add N s = now
  /\ Dayjs.day_number now - Dayjs.day_number s = N
  /\ (N = 0 ->
      DateRange.start_date (getLastNDays now N) = DateRange.end_date (getLastNDays now N)).
Proof.
  intros Hnow HN s. subst s. split; [reflexivity |].
  unfold Dayjs.add, Dayjs.subtract, Dayjs.add.
  replace (N * -1) with (- N) by lia. split; [| split; [| split]].
  - apply add_days_valid, Hnow.
  - pose proof (add_days_opp (- N) now Hnow) as H.
    now rewrite Z.opp_involutive in H.
  - rewrite day_number_add_days by assumption. lia.
  - intros ->. reflexivity.
Qed.

Lemma getLastNDays_window_witness :
  Dayjs.valid (Dayjs.mk 2024 3 10) /\ 0 <= 30
  /\ getLastNDays (Dayjs.mk 2024 3 10) 30 = DateRange.mk "2024-02-09" "2024-03-10"
  /\ Dayjs.add 30 (Dayjs.subtract 30 (Dayjs.mk 2024 3 10)) = Dayjs.mk 2024 3 10.
Proof.
  assert (Hv : Dayjs.valid (Dayjs.mk 2024 3 10)) by (vm_compute; intuition discriminate).
  assert (HN : 0 <= 30) by lia.
  destruct (getLastNDays_window (Dayjs.mk 2024 3 10) 30 Hv HN) as (Hrange & _ & Hadd & _).
  split; [exact Hv |]. split; [exact HN |]. split; [exact Hrange | exact Hadd].
Defined.

(** X10: "this week" runs from the Sunday on or before today to the
    Saturday on or after it: seven consecutive days that contain today. *)
Theorem getThisWeek_sunday_to_saturday (now : Dayjs.t) :
  Dayjs.valid now ->
  let s := Dayjs.startOf_week now in
  let e := Dayjs.endOf_week now in
  getThisWeek now = DateRange.mk (Dayjs.format_YYYY_MM_DD s) (Dayjs.format_YYYY_MM_DD e)
  /\ Dayjs.weekday s = 0 /\ Dayjs.weekday e = 6
  /\ Dayjs.day_number e = Dayjs.day_number s + 6
  /\ Dayjs.le s now /\ Dayjs.le now e.
Proof.
  intros Hnow s e. subst s e.
  pose proof (week_gap_bounds now) as Hgap.
  assert (Hg : Dayjs.week_gap now = (Dayjs.day_number now + 4) mod 7).
  { unfold Dayjs.week_gap, Dayjs.weekday.
    pose proof (Z.mod_pos_bound (Dayjs.day_number now + 4) 7 ltac:(lia)).
    destruct (Z.ltb_spec ((Dayjs.day_number now + 4) mod 7) 0); lia. }
  unfold Dayjs.startOf_week, Dayjs.endOf_week, Dayjs.weekday.
  rewrite !day_number_add_days by assumption.
  split; [reflexivity |].
  split; [rewrite Hg; lia_div |]. split; [rewrite Hg; lia_div |].
  split; [lia |].
  split; [apply add_days_back | apply add_days_forth]; lia.
Qed.

Lemma getThisWeek_sunday_to_saturday_witness :
  Dayjs.valid (Dayjs.mk 2024 3 13)
  /\ getThisWeek (Dayjs.mk 2024 3 13) = DateRange.mk "2024-03-10" "2024-03-16"
  /\ Dayjs.weekday (Dayjs.startOf_week (Dayjs.mk 2024 3 13)) = 0.
Proof.
  assert (Hv : Dayjs.valid (Dayjs.mk 2024 3 13)) by (vm_compute; intuition discriminate).
  destruct (getThisWeek_sunday_to_saturday (Dayjs.mk 2024 3 13) Hv) as (_ & Hs & _).
  split; [exact Hv |]. split; [vm_compute; reflexivity | exact Hs].
Defined.

(** X11: "this month" runs from day 1 to the last day of today's month
    and contains today; the day after its end is the first of a month. *)
Theorem getThisMonth_first_to_last (now : Dayjs.t) :
  Dayjs.valid now ->
  let s := Dayjs.mk (Dayjs.year now) (Dayjs.month now) 1 in
  let e := Dayjs.mk (Dayjs.year now) (Dayjs.month now)
                    (Dayjs.days_in_month (Dayjs.year now) (Dayjs.month now)) in
  getThisMonth now = DateRange.mk (Dayjs.format_YYYY_MM_DD s) (Dayjs.format_YYYY_MM_DD e)
  /\ Dayjs.le s now /\ Dayjs.le now e
  /\ Dayjs.day (Dayjs.next_day e) = 1.
Proof.
  intros [Hm Hd] s e. subst s e. unfold getThisMonth.
  rewrite (endOf_month_eq now Hm). split; [reflexivity |].
  unfold Dayjs.le, Dayjs.next_day. cbn [Dayjs.year Dayjs.month Dayjs.day].
  rewrite Z.ltb_irrefl. split; [lia |]. split; [lia |].
  now destruct (Dayjs.month now <? 12).
Qed.

Lemma getThisMonth_first_to_last_witness :
  Dayjs.valid (Dayjs.mk 2024 2 10)
  /\ getThisMonth (Dayjs.mk 2024 2 10) = DateRange.mk "2024-02-01" "2024-02-29".
Proof.
  assert (Hv : Dayjs.valid (Dayjs.mk 2024 2 10)) by (vm_compute; intuition discriminate).
  split; [exact Hv |].
  exact (proj1 (getThisMonth_first_to_last (Dayjs.mk 2024 2 10) Hv)).
Defined.

(** X12: whatever the selector string, both views resolve it to a range
    whose start is not after its end; a selector that is not one of the
    offered ones resolves to the 30-day window. *)
Theorem getDateRange_every_selector (now : Dayjs.t) (timeRange : string) :
  Dayjs.valid now ->
  (exists s e, ordered_range (getDateRange now timeRange) s e)
  /\ (exists s e, ordered_range (WorkoutView.getDateRange now timeRange) s e)
  /\ (timeRange <> "7days"%string -> timeRange <> "week"%string ->
      timeRange <> "month"%string ->
      getDateRange now timeRange = getLastNDays now 30)
  /\ (timeRange <> "7days"%string -> timeRange <> "90days"%string ->
      WorkoutView.getDateRange now timeRange = getLastNDays now 30).
Proof.
  intros Hnow. unfold getDateRange, WorkoutView.getDateRange.
  split; [| split; [| split]].
  - repeat (destruct (String.eqb timeRange _));
      eauto using getLastNDays_ordered, getThisWeek_ordered, getThisMonth_ordered
        with lia.
  - repeat (destruct (String.eqb timeRange _));
      eauto using getLastNDays_ordered with lia.
  - intros H7 Hw Hmo.
    apply String.eqb_neq in H7, Hw, Hmo. rewrite H7, Hw, Hmo.
    now destruct (String.eqb timeRange "30days").
  - intros H7 H90.
    apply String.eqb_neq in H7, H90. rewrite H7, H90.
    now destruct (String.eqb timeRange "30days").
Qed.

Lemma getDateRange_every_selector_witness :
  Dayjs.valid (Dayjs.mk 2024 3 10)
  /\ getDateRange (Dayjs.mk 2024 3 10) "yesterday" = getLastNDays (Dayjs.mk 2024 3 10) 30.
Proof.
  assert (Hv : Dayjs.valid (Dayjs.mk 2024 3 10)) by (vm_compute; intuition discriminate).
  split; [exact Hv |].
  apply (getDateRange_every_selector (Dayjs.mk 2024 3 10) "yesterday" Hv); discriminate.
Defined.

(** ** Fetchers: every way a request can settle *)

(** Case on how each promise settled, then run the body. *)
Ltac settle p := destruct p; cbv -[app]; auto.

Lemma fetchers_settle_loading (API : HealthAnalyticsAPI) :
  (forall filter s, loading (fetchWorkouts API filter s).1 = false)
  /\ (forall dateRange s, loading (fetchDailyMetrics API dateRange s).1 = false)
  /\ (forall dateRange s, loading (fetchNightlyMetrics API dateRange s).1 = false)
  /\ (forall dateRange s, loading (fetchSummary API dateRange s).1 = false).
Proof.
  split; [| split; [| split]]; intros q s.
  - unfold fetchWorkouts. settle (getWorkouts API q).
  - unfold fetchDailyMetrics. settle (getDailyMetrics API q).
  - unfold fetchNightlyMetrics. settle (getNightlyMetrics API q).
  - unfold fetchSummary. settle (getHealthSummary API q).
Qed.

(** X13: whatever the back end answers and whatever the hook held before,
    a fetch completes normally and leaves the loading flag cleared; no
    rejection leaves any of the four fetchers. *)
Theorem fetchers_always_settle (API : HealthAnalyticsAPI) :
  (forall filter s,
     (fetchWorkouts API filter s).2 = Eff.Returned tt
     /\ loading (fetchWorkouts API filter s).1 = false)
  /\ (forall dateRange s,
        (fetchDailyMetrics API dateRange s).2 = Eff.Returned tt
        /\ loading (fetchDailyMetrics API dateRange s).1 = false)
  /\ (forall dateRange s,
        (fetchNightlyMetrics API dateRange s).2 = Eff.Returned tt
        /\ loading (fetchNightlyMetrics API dateRange s).1 = false)
  /\ (forall dateRange s,
        (fetchSummary API dateRange s).2 = Eff.Returned tt
        /\ loading (fetchSummary API dateRange s).1 = false).
Proof.
  split; [| split; [| split]]; intros q s.
  - unfold fetchWorkouts. settle (getWorkouts API q).
  - unfold fetchDailyMetrics. settle (getDailyMetrics API q).
  - unfold fetchNightlyMetrics. settle (getNightlyMetrics API q).
  - unfold fetchSummary. settle (getHealthSummary API q).
Qed.

Section FetcherOutcomes.

Variable API : HealthAnalyticsAPI.

Lemma fetchDailyMetrics_fulfilled dateRange response
    (s : HookState (list DailyMetrics.t)) :
  getDailyMetrics API dateRange = Eff.Fulfilled response ->
  fetchDailyMetrics API dateRange s
  = (mkHookState (ApiResponse.results response) false None (console s),
     Eff.Returned tt).
Proof. run_fetch. Qed.

Lemma fetchNightlyMetrics_fulfilled dateRange response
    (s : HookState (list NightlyMetrics.t)) :
  getNightlyMetrics API dateRange = Eff.Fulfilled response ->
  fetchNightlyMetrics API dateRange s
  = (mkHookState (ApiResponse.results response) false None (console s),
     Eff.Returned tt).
Proof. run_fetch. Qed.

Lemma fetchSummary_fulfilled dateRange response
    (s : HookState (option HealthSummary.t)) :
  getHealthSummary API dateRange = Eff.Fulfilled response ->
  fetchSummary API dateRange s
  = (mkHookState (Some response) false None (console s), Eff.Returned tt).
Proof. run_fetch. Qed.

(** X14: when the request is fulfilled, the fetcher holds exactly the
    response's result set (the summary hook: the response itself), clears
    an error left by an earlier failure, clears the loading flag and
    writes nothing to the console. *)
Theorem fetchers_fulfilled :
  (forall filter response s,
     getWorkouts API filter = Eff.Fulfilled response ->
     fetchWorkouts API filter s
     = (mkHookState (ApiResponse.results response) false None (console s),
        Eff.Returned tt))
  /\ (forall dateRange response s,
        getDailyMetrics API dateRange = Eff.Fulfilled response ->
        fetchDailyMetrics API dateRange s
        = (mkHookState (ApiResponse.results response) false None (console s),
           Eff.Returned tt))
  /\ (forall dateRange response s,
        getNightlyMetrics API dateRange = Eff.Fulfilled response ->
        fetchNightlyMetrics API dateRange s
        = (mkHookState (ApiResponse.results response) false None (console s),
           Eff.Returned tt))
  /\ (forall dateRange response s,
        getHealthSummary API dateRange = Eff.Fulfilled response ->
        fetchSummary API dateRange s
        = (mkHookState (Some response) false None (console s), Eff.Returned tt)).
Proof.
  split; [| split; [| split]]; intros q response s H.
  - now apply fetchWorkouts_fulfilled.
  - now apply fetchDailyMetrics_fulfilled.
  - now apply fetchNightlyMetrics_fulfilled.
  - now apply fetchSummary_fulfilled.
Qed.

End FetcherOutcomes.

Lemma fetchers_fulfilled_witness :
  let api := mkAPI (fun _ => Eff.Fulfilled
                               (ApiResponse.mk 1 None None
                                  [sample_workout 1 "2024-03-01T07:00:00Z" None (Some 450%Q)]))
                   (fun _ => Eff.Rejected "Network Error")
                   (fun _ => Eff.Rejected "Network Error")
                   (fun _ => Eff.Rejected "Network Error") in
  let failed := mkHookState [] false (Some "Failed to fetch workouts"%string) [] in
  data (fetchWorkouts api None failed).1
  = [sample_workout 1 "2024-03-01T07:00:00Z" None (Some 450%Q)]
  /\ error (fetchWorkouts api None failed).1 = None.
Proof.
  intros api failed.
  rewrite (proj1 (fetchers_fulfilled api) None _ failed eq_refl).
  split; reflexivity.
Defined.

(** ** The guard of the summary and trend hooks *)

Lemma format_YYYY_MM_DD_not_empty (d : Dayjs.t) :
  String.eqb (Dayjs.format_YYYY_MM_DD d) "" = false.
Proof.
  unfold Dayjs.format_YYYY_MM_DD.
  destruct (Js.padStart (pretty (Dayjs.year d)) 4 "0"); reflexivity.
Qed.

Lemma getDateRange_passes_guard (now : Dayjs.t) (timeRange : string) :
  String.eqb (DateRange.start_date (getDateRange now timeRange)) "" = false
  /\ String.eqb (DateRange.end_date (getDateRange now timeRange)) "" = false.
Proof.
  unfold getDateRange.
  repeat (destruct (String.eqb timeRange _));
    split; apply format_YYYY_MM_DD_not_empty.
Qed.

Lemma useHealthSummary_effect_on_dashboard (API : HealthAnalyticsAPI)
    (now : Dayjs.t) (timeRange : string) s :
  useHealthSummary_effect API (getDateRange now timeRange) s
  = fetchSummary API (getDateRange now timeRange) s.
Proof.
  unfold useHealthSummary_effect.
  destruct (getDateRange_passes_guard now timeRange) as [-> ->]. reflexivity.
Qed.

(** X15: with a range whose start or end is the empty string the summary
    hook makes no request and writes nothing, so a hook that has just
    mounted keeps showing [loading]; a range resolved by the dashboard
    always has both ends, so there the request is always made. *)
Theorem useHealthSummary_guard (API : HealthAnalyticsAPI) :
  (forall dateRange s,
     DateRange.start_date dateRange = ""%string
     \/ DateRange.end_date dateRange = ""%string ->
     useHealthSummary_effect API dateRange s = (s, Eff.Returned tt))
  /\ (forall dateRange,
        DateRange.start_date dateRange = ""%string
        \/ DateRange.end_date dateRange = ""%string ->
        loading (useHealthSummary_effect API dateRange (useState_init None)).1 = true)
  /\ (forall now timeRange s,
        useHealthSummary_effect API (getDateRange now timeRange) s
        = fetchSummary API (getDateRange now timeRange) s).
Proof.
  assert (Hskip : forall dateRange s,
             DateRange.start_date dateRange = ""%string
             \/ DateRange.end_date dateRange = ""%string ->
             useHealthSummary_effect API dateRange s = (s, Eff.Returned tt)).
  { intros dateRange s [H|H]; unfold useHealthSummary_effect; rewrite H; cbn.
    - reflexivity.
    - now rewrite andb_false_r. }
  split; [exact Hskip |]. split.
  - intros dateRange H. now rewrite (Hskip _ _ H).
  - intros now timeRange s. apply useHealthSummary_effect_on_dashboard.
Qed.

Lemma useHealthSummary_guard_witness :
  DateRange.end_date (DateRange.mk "2024-03-03" "") = ""%string
  /\ loading (useHealthSummary_effect offline_API (DateRange.mk "2024-03-03" "")
                (useState_init None)).1 = true.
Proof.
  split; [reflexivity |].
  apply (proj1 (proj2 (useHealthSummary_guard offline_API))). now right.
Defined.

(** X21: the two trend hooks behave like the summary hook: a rejected
    request sets the hook's own message, logs the reason, clears the
    loading flag and keeps the payload held before; with an empty start or
    end they make no request at all. *)
Theorem trend_hooks_keep_payload (any : Type)
    (getWorkoutTrends getDailyTrends : DateRange.t -> Eff.settled any)
    (dateRange : DateRange.t) (s : HookState (option any)) :
  (forall reason,
     DateRange.start_date dateRange <> ""%string ->
     DateRange.end_date dateRange <> ""%string ->
     getWorkoutTrends dateRange = Eff.Rejected reason ->
     useWorkoutTrends_effect any getWorkoutTrends dateRange s
     = (mkHookState (data s) false (Some "Failed to fetch workout trends"%string)
                    (console s ++ [reason]),
        Eff.Returned tt))
  /\ (forall reason,
        DateRange.start_date dateRange <> ""%string ->
        DateRange.end_date dateRange <> ""%string ->
        getDailyTrends dateRange = Eff.Rejected reason ->
        useDailyTrends_effect any getDailyTrends dateRange s
        = (mkHookState (data s) false (Some "Failed to fetch daily trends"%string)
                       (console s ++ [reason]),
           Eff.Returned tt))
  /\ (DateRange.start_date dateRange = ""%string
      \/ DateRange.end_date dateRange = ""%string ->
      useWorkoutTrends_effect any getWorkoutTrends dateRange s = (s, Eff.Returned tt)
      /\ useDailyTrends_effect any getDailyTrends dateRange s = (s, Eff.Returned tt)).
Proof.
  split; [| split].
  - intros reason Hs He H. unfold useWorkoutTrends_effect.
    apply String.eqb_neq in Hs, He. rewrite Hs, He. cbn [negb andb].
    unfold fetchWorkoutTrends. cbv -[app]. rewrite H. reflexivity.
  - intros reason Hs He H. unfold useDailyTrends_effect.
    apply String.eqb_neq in Hs, He. rewrite Hs, He. cbn [negb andb].
    unfold fetchDailyTrends. cbv -[app]. rewrite H. reflexivity.
  - intros [H|H]; unfold useWorkoutTrends_effect, useDailyTrends_effect; rewrite H;
      cbn [String.eqb negb andb]; rewrite ?andb_false_r; split; reflexivity.
Qed.

Lemma trend_hooks_keep_payload_witness :
  let range := DateRange.mk "2024-03-03" "2024-03-10" in
  let held := mkHookState (Some 42%Z) false None [] in
  useWorkoutTrends_effect Z (fun _ => Eff.Rejected "Network Error") range held
  = (mkHookState (Some 42%Z) false (Some "Failed to fetch workout trends"%string)
                 ["Network Error"%string],
     Eff.Returned tt).
Proof.
  intros range held.
  apply (proj1 (trend_hooks_keep_payload Z (fun _ => Eff.Rejected "Network Error")
                  (fun _ => Eff.Rejected "Network Error") range held));
    [discriminate | discriminate | reflexivity].
Defined.

(** ** The token store *)

Lemma api_request_outcome {D} (answer : option string -> HttpResult D) (b : Browser) :
  api_request answer b
  = match answer (request_authorization b) with
    | HttpOk d => (b, Eff.Returned d)
    | HttpError status message =>
        (if bool_decide (status = Some 401%Z)
         then mkBrowser (delete "authToken" (localStorage b)) "/login"
                        (browser_console b)
         else b,
         Eff.Thrown message)
    end.
Proof.
  unfold api_request. destruct (answer _) as [d|status message]; [reflexivity |].
  destruct (bool_decide _); reflexivity.
Qed.

Lemma truthy_string_Some (t : string) :
  truthy_string (Some t) = true <-> t <> ""%string.
Proof.
  cbn. destruct (String.eqb_spec t ""); cbn; split; congruence.
Qed.

(** X17: [logout] never throws, and after it no token is stored, so
    [isAuthenticated()] is false and [getAuthToken()] is null, whatever
    the server answered; everything else in [localStorage] is kept. *)
Theorem logout_always_clears_token (post : option string -> HttpResult unit)
    (b : Browser) :
  (AuthAPI.logout post b).2 = Eff.Returned tt
  /\ AuthAPI.getAuthToken (AuthAPI.logout post b).1 = None
  /\ AuthAPI.isAuthenticated (AuthAPI.logout post b).1 = false
  /\ forall key, key <> "authToken"%string ->
                 getItem key (AuthAPI.logout post b).1 = getItem key b.
Proof.
  unfold AuthAPI.logout, Eff.try_catch_finally. rewrite api_request_outcome.
  unfold AuthAPI.isAuthenticated, AuthAPI.getAuthToken, getItem.
  destruct (post _) as [[]|status message]; [| destruct (bool_decide _)];
    cbn; rewrite ?lookup_delete_eq; repeat split;
    intros key Hkey; now rewrite ?lookup_delete_ne by congruence.
Qed.

Lemma logout_always_clears_token_witness :
  let b := mkBrowser {["authToken"%string := "abc123"%string;
                       "theme"%string := "dark"%string]} "/dashboard" [] in
  "theme"%string <> "authToken"%string
  /\ getItem "theme" (AuthAPI.logout (fun _ => HttpError (Some 500%Z) "Server Error") b).1
     = Some "dark"%string
  /\ AuthAPI.isAuthenticated
       (AuthAPI.logout (fun _ => HttpError (Some 500%Z) "Server Error") b).1 = false.
Proof.
  intros b.
  destruct (logout_always_clears_token
              (fun _ => HttpError (Some 500%Z) "Server Error") b) as (_ & _ & Hauth & Hkeep).
  assert (Hne : "theme"%string <> "authToken"%string) by discriminate.
  split; [exact Hne |]. split; [| exact Hauth].
  rewrite (Hkeep _ Hne). reflexivity.
Defined.

Lemma login_fulfilled_outcome
    (post : string -> string -> option string -> HttpResult LoginData.t)
    (username password : string) (b : Browser) (response : LoginData.t) :
  post username password (request_authorization b) = HttpOk response ->
  AuthAPI.login post username password b
  = (if truthy_string (LoginData.token response)
     then mkBrowser (<["authToken"%string := default ""%string (LoginData.token response)]>
                       (localStorage b))
                    (location_href b) (browser_console b)
     else b,
     Eff.Returned response).
Proof.
  intros Hpost. unfold AuthAPI.login, try_catch, mbind, Eff_bind, Eff.bind.
  rewrite api_request_outcome, Hpost.
  destruct (truthy_string (LoginData.token response)); reflexivity.
Qed.

Lemma login_rejected_outcome
    (post : string -> string -> option string -> HttpResult LoginData.t)
    (username password : string) (b : Browser) (status : option Z)
    (message : Eff.JsError) :
  post username password (request_authorization b) = HttpError status message ->
  AuthAPI.login post username password b
  = (if bool_decide (status = Some 401%Z)
     then mkBrowser (delete "authToken" (localStorage b)) "/login" (browser_console b)
     else b,
     Eff.Thrown message).
Proof.
  intros Hpost. unfold AuthAPI.login, try_catch, mbind, Eff_bind, Eff.bind.
  rewrite api_request_outcome, Hpost. reflexivity.
Qed.

(** X18: a fulfilled login whose response carries a non-empty token
    stores it: afterwards [getAuthToken()] is that token,
    [isAuthenticated()] is true and the next request carries
    [Bearer <token>]; a fulfilled login without a token stores nothing. *)
Theorem login_stores_token
    (post : string -> string -> option string -> HttpResult LoginData.t)
    (username password : string) (b : Browser) (response : LoginData.t) :
  post username password (request_authorization b) = HttpOk response ->
  (AuthAPI.login post username password b).2 = Eff.Returned response
  /\ (forall t, LoginData.token response = Some t -> t <> ""%string ->
        let b' := (AuthAPI.login post username password b).1 in
        AuthAPI.getAuthToken b' = Some t
        /\ AuthAPI.isAuthenticated b' = true
        /\ request_authorization b' = Some ("Bearer " +:+ t))
  /\ (truthy_string (LoginData.token response) = false ->
      (AuthAPI.login post username password b).1 = b).
Proof.
  intros Hpost. rewrite (login_fulfilled_outcome _ _ _ _ _ Hpost).
  split; [reflexivity |]. split.
  - intros t Ht Hne. rewrite Ht.
    pose proof (proj2 (truthy_string_Some t) Hne) as Htr. rewrite Htr.
    unfold AuthAPI.getAuthToken, AuthAPI.isAuthenticated, request_authorization, getItem.
    cbn [fst snd localStorage default from_option id].
    rewrite lookup_insert_eq, Htr. auto.
  - intros Hfalse. now rewrite Hfalse.
Qed.

Lemma login_stores_token_witness :
  let post := fun (_ _ : string) (_ : option string) =>
                HttpOk (LoginData.mk (Some "abc123"%string) (Some 7%Z)) in
  let b := mkBrowser ∅ "/login" [] in
  AuthAPI.getAuthToken (AuthAPI.login post "ann" "secret12" b).1 = Some "abc123"%string
  /\ AuthAPI.isAuthenticated (AuthAPI.login post "ann" "secret12" b).1 = true.
Proof.
  intros post b.
  destruct (login_stores_token post "ann" "secret12" b
              (LoginData.mk (Some "abc123"%string) (Some 7%Z)) eq_refl)
    as (_ & Hstore & _).
  destruct (Hstore "abc123"%string eq_refl ltac:(discriminate)) as (Ht & Ha & _).
  split; assumption.
Defined.

(** X19: a rejected login is thrown on to the caller; the browser state
    is untouched unless the response had status 401, in which case the
    stored token is removed and the page is sent to [/login]. *)
Theorem login_rejected
    (post : string -> string -> option string -> HttpResult LoginData.t)
    (username password : string) (b : Browser) (status : option Z)
    (message : Eff.JsError) :
  post username password (request_authorization b) = HttpError status message ->
  (AuthAPI.login post username password b).2 = Eff.Thrown message
  /\ (status <> Some 401%Z -> (AuthAPI.login post username password b).1 = b)
  /\ (status = Some 401%Z ->
      let b' := (AuthAPI.login post username password b).1 in
      AuthAPI.isAuthenticated b' = false /\ location_href b' = "/login"%string).
Proof.
  intros Hpost. rewrite (login_rejected_outcome _ _ _ _ _ _ Hpost).
  cbn [fst snd]. split; [reflexivity |]. split.
  - intros Hne. now rewrite bool_decide_eq_false_2.
  - intros ->. rewrite bool_decide_eq_true_2 by reflexivity.
    unfold AuthAPI.isAuthenticated, getItem. cbn [localStorage location_href].
    now rewrite lookup_delete_eq.
Qed.

Lemma login_rejected_witness :
  let post := fun (_ _ : string) (_ : option string) =>
                @HttpError LoginData.t (Some 401%Z) "Unauthorized" in
  let b := mkBrowser {["authToken"%string := "stale"%string]} "/dashboard" [] in
  (AuthAPI.login post "ann" "wrong" b).2 = Eff.Thrown "Unauthorized"%string
  /\ AuthAPI.isAuthenticated (AuthAPI.login post "ann" "wrong" b).1 = false.
Proof.
  intros post b.
  destruct (login_rejected post "ann" "wrong" b (Some 401%Z) "Unauthorized" eq_refl)
    as (Hthrow & _ & H401).
  split; [exact Hthrow |]. exact (proj1 (H401 eq_refl)).
Defined.

Lemma logout_outcome_store (post : option string -> HttpResult unit) (b : Browser) :
  (AuthAPI.logout post b).2 = Eff.Returned tt
  /\ getItem "authToken" (AuthAPI.logout post b).1 = None.
Proof.
  unfold AuthAPI.logout, Eff.try_catch_finally. rewrite api_request_outcome.
  unfold getItem.
  destruct (post _) as [[]|status message]; [| destruct (bool_decide _)];
    cbn [fst snd]; unfold removeItem, browser_console_error;
    cbn [fst snd localStorage]; now rewrite lookup_delete_eq.
Qed.

(** X20: the [isAuthenticated] state of [useAuth] starts as the store
    says; after the hook's [logout] it is false, as the store says; after
    a fulfilled [login] it is true, and the store agrees exactly when the
    response carried a non-empty token or a token was stored before; a
    rejected [login] is thrown on and leaves the state as it was. *)
Theorem useAuth_state_and_store
    (login_post : string -> string -> option string -> HttpResult LoginData.t)
    (logout_post : option string -> HttpResult unit)
    (username password : string) (w : AuthWorld) :
  (forall b, isAuthenticated (useAuth.init b) = AuthAPI.isAuthenticated b)
  /\ ((useAuth.logout logout_post w).2 = Eff.Returned tt
      /\ isAuthenticated (useAuth.logout logout_post w).1 = false
      /\ AuthAPI.isAuthenticated (browser (useAuth.logout logout_post w).1) = false)
  /\ (forall response,
        login_post username password (request_authorization (browser w))
        = HttpOk response ->
        let w' := (useAuth.login login_post username password w).1 in
        (useAuth.login login_post username password w).2 = Eff.Returned true
        /\ isAuthenticated w' = true
        /\ AuthAPI.isAuthenticated (browser w')
           = truthy_string (LoginData.token response)
             || AuthAPI.isAuthenticated (browser w))
  /\ (forall status message,
        login_post username password (request_authorization (browser w))
        = HttpError status message ->
        (useAuth.login login_post username password w).2 = Eff.Thrown message
        /\ isAuthenticated (useAuth.login login_post username password w).1
           = isAuthenticated w).
Proof.
  split; [reflexivity |]. split; [| split].
  - destruct (logout_outcome_store logout_post (browser w)) as [Hret Hnone].
    unfold useAuth.logout, mbind, Eff_bind, Eff.bind, in_browser, setIsAuthenticated.
    destruct (AuthAPI.logout logout_post (browser w)) as [b' r] eqn:Hrun.
    cbn [fst snd] in Hret, Hnone. subst r. cbn [fst snd browser isAuthenticated].
    unfold AuthAPI.isAuthenticated. now rewrite Hnone.
  - intros response Hpost.
    unfold useAuth.login, try_catch, mbind, Eff_bind, Eff.bind, in_browser,
      setIsAuthenticated, Eff.ret.
    rewrite (login_fulfilled_outcome _ _ _ _ _ Hpost).
    cbn [fst snd browser isAuthenticated]. split; [reflexivity |]. split; [reflexivity |].
    destruct (LoginData.token response) as [t|] eqn:Ht; [| reflexivity].
    destruct (truthy_string (Some t)) eqn:Htr; [| reflexivity].
    unfold AuthAPI.isAuthenticated, getItem. cbn [localStorage default from_option id].
    now rewrite lookup_insert_eq, Htr.
  - intros status message Hpost.
    unfold useAuth.login, try_catch, mbind, Eff_bind, Eff.bind, in_browser, Eff.throw.
    rewrite (login_rejected_outcome _ _ _ _ _ _ Hpost).
    cbn [fst snd isAuthenticated]. split; reflexivity.
Qed.

Lemma useAuth_state_and_store_witness :
  let post := fun (_ _ : string) (_ : option string) =>
                HttpOk (LoginData.mk None (Some 7%Z)) in
  let w := useAuth.init (mkBrowser ∅ "/login" []) in
  isAuthenticated (useAuth.login post "ann" "secret12" w).1 = true
  /\ AuthAPI.isAuthenticated (browser (useAuth.login post "ann" "secret12" w).1) = false.
Proof.
  intros post w.
  destruct (useAuth_state_and_store post (fun _ => HttpOk tt) "ann" "secret12" w)
    as (_ & _ & Hok & _).
  destruct (Hok (LoginData.mk None (Some 7%Z)) eq_refl) as (_ & Hcell & Hstore).
  split; [exact Hcell |]. rewrite Hstore. reflexivity.
Defined.

(** ** Durations *)

Local Open Scope Q_scope.

Lemma Qfloor_bounds (x : Q) :
  inject_Z (Qfloor x) <= x /\ x < inject_Z (Qfloor x) + 1.
Proof.
  split; [apply Qfloor_le |].
  pose proof (Qlt_floor x) as H. rewrite inject_Z_plus in H. exact H.
Qed.

Lemma Qfloor_unique (z : Z) (x : Q) :
  inject_Z z <= x -> x < inject_Z z + 1 -> Qfloor x = z.
Proof.
  intros Hlo Hhi. destruct (Qfloor_bounds x) as [Hfl Hfu].
  assert (H1 : inject_Z (Qfloor x) < inject_Z (z + 1))
    by (rewrite inject_Z_plus; change (inject_Z 1) with 1; lra).
  assert (H2 : inject_Z z < inject_Z (Qfloor x + 1))
    by (rewrite inject_Z_plus; change (inject_Z 1) with 1; lra).
  rewrite <- Zlt_Qlt in H1, H2. lia.
Qed.

Lemma js_rem_nonneg (minutes : Q) :
  0 <= minutes ->
  js_rem minutes 60 == minutes - 60 * inject_Z (Qfloor (minutes / 60))
  /\ 0 <= js_rem minutes 60 /\ js_rem minutes 60 < 60.
Proof.
  intros Hpos. unfold js_rem, Math_trunc.
  assert (Hq : 0 <= minutes / 60) by (apply Qle_shift_div_l; lra).
  apply Qle_bool_iff in Hq. rewrite Hq.
  destruct (Qfloor_bounds (minutes / 60)) as [Hlo Hhi].
  assert (Hm : minutes == 60 * (minutes / 60)) by (field; lra).
  split; [reflexivity |]. split; lra.
Qed.

Lemma Z_lower (z lo : Z) : inject_Z lo - 1 < inject_Z z -> (lo <= z)%Z.
Proof.
  intros H.
  assert (H' : inject_Z (lo - 1) < inject_Z z)
    by (unfold Z.sub; rewrite inject_Z_plus, inject_Z_opp;
        change (inject_Z 1) with 1; lra).
  rewrite <- Zlt_Qlt in H'. lia.
Qed.

Lemma Z_upper (z hi : Z) : inject_Z z < inject_Z hi + 1 -> (z <= hi)%Z.
Proof.
  intros H.
  assert (H' : inject_Z z < inject_Z (hi + 1))
    by (rewrite inject_Z_plus; change (inject_Z 1) with 1; lra).
  rewrite <- Zlt_Qlt in H'. lia.
Qed.

(** Hours and minutes as any pair of integers cut out by the two floors. *)
Lemma duration_parts_facts (minutes : Q) (hours mins : Z) :
  0 <= minutes ->
  inject_Z hours <= minutes / 60 -> minutes / 60 < inject_Z hours + 1 ->
  inject_Z mins <= minutes - 60 * inject_Z hours + (1 # 2) ->
  minutes - 60 * inject_Z hours + (1 # 2) < inject_Z mins + 1 ->
  (0 <= hours)%Z /\ (0 <= mins <= 60)%Z
  /\ inject_Z (60 * hours) <= minutes /\ minutes < inject_Z (60 * hours) + 60
  /\ minutes - (1 # 2) < inject_Z (60 * hours + mins)
  /\ inject_Z (60 * hours + mins) <= minutes + (1 # 2)
  /\ (mins = 60%Z <-> inject_Z (60 * hours) + (119 # 2) <= minutes)
  /\ (minutes < 60 -> hours = 0%Z)
  /\ (60 <= minutes -> (0 < hours)%Z).
Proof.
  intros Hpos Hlo Hhi Hmlo Hmhi.
  assert (Hm : minutes == 60 * (minutes / 60)) by (field; lra).
  assert (Hh0 : (0 <= hours)%Z) by (apply Z_lower; change (inject_Z 0) with 0; lra).
  assert (Hm0 : (0 <= mins)%Z) by (apply Z_lower; change (inject_Z 0) with 0; lra).
  assert (Hm60 : (mins <= 60)%Z) by (apply Z_upper; change (inject_Z 60) with 60; lra).
  assert (Hge60 : minutes - 60 * inject_Z hours + (1 # 2) >= 60 -> (60 <= mins)%Z)
    by (intros Hge; apply Z_lower; change (inject_Z 60) with 60; lra).
  assert (Hlt1 : minutes < 60 -> (hours <= 0)%Z)
    by (intros Hlt; apply Z_upper; change (inject_Z 0) with 0; lra).
  assert (Hge1 : 60 <= minutes -> (1 <= hours)%Z)
    by (intros Hge; apply Z_lower; change (inject_Z 1) with 1; lra).
  assert (H60 : inject_Z (60 * hours) == 60 * inject_Z hours)
    by (rewrite inject_Z_mult; reflexivity).
  assert (Hsum : inject_Z (60 * hours + mins) == 60 * inject_Z hours + inject_Z mins)
    by (rewrite inject_Z_plus, inject_Z_mult; reflexivity).
  split; [exact Hh0 |]. split; [split; assumption |].
  split; [lra |]. split; [lra |]. split; [lra |]. split; [lra |].
  split; [| split].
  - split.
    + intros Heq. rewrite Heq in Hmlo. change (inject_Z 60) with 60 in Hmlo. lra.
    + intros Hge. assert (H : (60 <= mins)%Z) by (apply Hge60; lra). lia.
  - intros Hlt. pose proof (Hlt1 Hlt). lia.
  - intros Hge. pose proof (Hge1 Hge). lia.
Qed.

(** X22: for a duration of [minutes >= 0] the hours shown are the whole
    hours, the minutes shown lie between 0 and 60 and hours and minutes
    together are within half a minute of the duration; the text shows
    60 minutes ("1h 60m") exactly when the remainder is 59.5 or more; below
    an hour the text has no hour part. *)
Theorem formatDuration_parts (minutes : Q) :
  0 <= minutes ->
  let hours := Math_floor (minutes / 60) in
  let mins := Math_round (js_rem minutes 60) in
  (0 <= hours)%Z /\ (0 <= mins <= 60)%Z
  /\ inject_Z (60 * hours) <= minutes /\ minutes < inject_Z (60 * hours) + 60
  /\ minutes - (1 # 2) < inject_Z (60 * hours + mins)
  /\ inject_Z (60 * hours + mins) <= minutes + (1 # 2)
  /\ (mins = 60%Z <-> inject_Z (60 * hours) + (119 # 2) <= minutes)
  /\ (minutes < 60 -> formatDuration minutes = pretty mins +:+ "m")
  /\ (60 <= minutes ->
      formatDuration minutes = pretty hours +:+ "h " +:+ pretty mins +:+ "m").
Proof.
  intros Hpos hours mins.
  destruct (js_rem_nonneg minutes Hpos) as (Hrem & _ & _).
  destruct (Qfloor_bounds (minutes / 60)) as [Hlo Hhi].
  destruct (Qfloor_bounds (js_rem minutes 60 + (1 # 2))) as [Hmlo Hmhi].
  rewrite Hrem in Hmlo at 2. rewrite Hrem in Hmhi at 1.
  destruct (duration_parts_facts minutes hours mins Hpos Hlo Hhi Hmlo Hmhi)
    as (H1 & H2 & H3 & H4 & H5 & H6 & H7 & H8 & H9).
  repeat (split; [assumption |]). split.
  - intros Hlt. unfold formatDuration. fold hours mins. now rewrite (H8 Hlt).
  - intros Hge. unfold formatDuration. fold hours mins.
    pose proof (H9 Hge) as Hz. apply Z.ltb_lt in Hz. now rewrite Hz.
Qed.

Lemma formatDuration_parts_witness :
  0 <= 239 # 2
  /\ Math_round (js_rem (239 # 2) 60) = 60%Z
  /\ formatDuration (239 # 2) = "1h 60m"%string.
Proof.
  assert (Hpos : 0 <= 239 # 2) by discriminate.
  destruct (formatDuration_parts (239 # 2) Hpos) as (_ & _ & _ & _ & _ & _ & H60 & _).
  split; [exact Hpos |]. split; [| vm_compute; reflexivity].
  apply H60. vm_compute. discriminate.
Defined.

(** X23: for a whole number [k >= 0] of minutes both formats show
    [k div 60] hours and [k mod 60] minutes (so never 60 minutes), and the
    long format uses the singular exactly for the number 1. *)
Theorem formatDuration_whole_minutes (k : Z) :
  (0 <= k)%Z ->
  Math_floor (inject_Z k / 60) = (k / 60)%Z
  /\ Math_round (js_rem (inject_Z k) 60) = (k mod 60)%Z
  /\ formatDuration (inject_Z k)
     = (if (60 <=? k)%Z
        then pretty (k / 60)%Z +:+ "h " +:+ pretty (k mod 60)%Z +:+ "m"
        else pretty k +:+ "m")
  /\ formatDurationDetailed (inject_Z k)
     = (if (60 <=? k)%Z
        then pretty (k / 60)%Z +:+ " hour" +:+ (if (k / 60 =? 1)%Z then "" else "s")
             +:+ " " +:+ pretty (k mod 60)%Z +:+ " minute"
             +:+ (if (k mod 60 =? 1)%Z then "" else "s")
        else pretty k +:+ " minute" +:+ (if (k =? 1)%Z then "" else "s")).
Proof.
  intros Hk.
  assert (Hpos : 0 <= inject_Z k)
    by (change 0 with (inject_Z 0); now rewrite <- Zle_Qle).
  assert (Hfloor : Math_floor (inject_Z k / 60) = (k / 60)%Z).
  { unfold Math_floor. change 60 with (inject_Z 60). symmetry. apply Zdiv_Qdiv. }
  destruct (js_rem_nonneg (inject_Z k) Hpos) as (Hrem & _ & _).
  fold (Math_floor (inject_Z k / 60)) in Hrem. rewrite Hfloor in Hrem.
  assert (Hround : Math_round (js_rem (inject_Z k) 60) = (k mod 60)%Z).
  { unfold Math_round. apply Qfloor_unique; rewrite Hrem;
      pose proof (Z.div_mod k 60 ltac:(lia)) as Hdm;
      assert (Hq : inject_Z k == 60 * inject_Z (k / 60) + inject_Z (k mod 60))
        by (rewrite Hdm at 1; rewrite inject_Z_plus, inject_Z_mult; reflexivity);
      lra. }
  split; [exact Hfloor |]. split; [exact Hround |].
  unfold formatDuration, formatDurationDetailed. rewrite Hfloor, Hround.
  pose proof (Z.div_mod k 60 ltac:(lia)) as Hdm.
  pose proof (Z.mod_pos_bound k 60 ltac:(lia)) as Hmod.
  destruct (Z.leb_spec 60 k) as [Hge|Hlt].
  - assert (Hh : (0 <? k / 60)%Z = true) by (apply Z.ltb_lt; lia).
    rewrite Hh. split; reflexivity.
  - assert (Hd : (k / 60 = 0)%Z) by (apply Z.div_small; lia).
    assert (Hmk : (k mod 60 = k)%Z) by (apply Z.mod_small; lia).
    rewrite Hd, Hmk. split; reflexivity.
Qed.

Lemma formatDuration_whole_minutes_witness :
  (0 <= 125)%Z
  /\ formatDuration (inject_Z 125) = "2h 5m"%string
  /\ formatDurationDetailed (inject_Z 125) = "2 hours 5 minutes"%string.
Proof.
  assert (Hk : (0 <= 125)%Z) by lia.
  destruct (formatDuration_whole_minutes 125 Hk) as (_ & _ & H1 & H2).
  split; [exact Hk |]. split; [rewrite H1 | rewrite H2]; vm_compute; reflexivity.
Defined.

(** ** Matching by derivatives *)

Lemma Matches_Seq_inv (r1 r2 : Regex) (s : JsString) :
  Matches (Seq r1 r2) s ->
  exists s1 s2, s = s1 ++ s2 /\ Matches r1 s1 /\ Matches r2 s2.
Proof. inversion 1; subst; eauto. Qed.

Lemma Matches_Or_inv (r1 r2 : Regex) (s : JsString) :
  Matches (Or r1 r2) s -> Matches r1 s \/ Matches r2 s.
Proof. inversion 1; subst; auto. Qed.

Lemma Matches_Class_inv (p : N -> bool) (s : JsString) :
  Matches (Class p) s -> exists c, s = [c] /\ p c = true.
Proof. inversion 1; subst; eauto. Qed.

Lemma nullable_Matches (r : Regex) : nullable r = true <-> Matches r [].
Proof.
  induction r as [| |p|r1 IH1 r2 IH2|r1 IH1 r2 IH2|r IH]; cbn [nullable].
  - split; [discriminate | inversion 1].
  - split; [constructor | reflexivity].
  - split; [discriminate | inversion 1].
  - rewrite andb_true_iff, IH1, IH2. split.
    + intros [H1 H2]. exact (Matches_Seq _ _ [] [] H1 H2).
    + intros H. apply Matches_Seq_inv in H as (s1 & s2 & Heq & H1 & H2).
      symmetry in Heq. apply app_eq_nil in Heq as [-> ->]. now split.
  - rewrite orb_true_iff, IH1, IH2. split.
    + intros [H|H]; [now apply Matches_Or_l | now apply Matches_Or_r].
    + apply Matches_Or_inv.
  - split; [constructor | reflexivity].
Qed.

Lemma Matches_Star_cons_inv (r : Regex) (c : N) (s : JsString) :
  Matches (Star r) (c :: s) ->
  exists s1 s2, s = s1 ++ s2 /\ Matches r (c :: s1) /\ Matches (Star r) s2.
Proof.
  intros H. remember (Star r) as r' eqn:Hr. remember (c :: s) as s' eqn:Hs.
  revert s Hs.
  induction H as [|p c0 Hp|r1 r2 s1 s2 H1 IH1 H2 IH2|r1 r2 s0 H0 IH0|r1 r2 s0 H0 IH0
                 |r0|r0 s1 s2 H1 IH1 H2 IH2];
    intros t Ht; try discriminate.
  injection Hr as ->. destruct s1 as [|c1 s1].
  - cbn in Ht. now apply IH2.
  - cbn in Ht. injection Ht as -> <-. now exists s1, s2.
Qed.

Lemma deriv_Matches (r : Regex) :
  forall c s, Matches (deriv c r) s <-> Matches r (c :: s).
Proof.
  induction r as [| |p|r1 IH1 r2 IH2|r1 IH1 r2 IH2|r IH]; intros c s; cbn [deriv].
  - split; inversion 1.
  - split; inversion 1.
  - destruct (p c) eqn:Hp; split; intros H.
    + inversion H; subst. now constructor.
    + apply Matches_Class_inv in H as (c' & Heq & _). injection Heq as -> ->.
      constructor.
    + inversion H.
    + apply Matches_Class_inv in H as (c' & Heq & Hc). injection Heq as -> ->.
      congruence.
  - split.
    + intros H.
      assert (Hseq : Matches (Seq (deriv c r1) r2) s -> Matches (Seq r1 r2) (c :: s)).
      { intros Hs. apply Matches_Seq_inv in Hs as (s1 & s2 & -> & H1 & H2).
        apply IH1 in H1. exact (Matches_Seq _ _ (c :: s1) s2 H1 H2). }
      destruct (nullable r1) eqn:Hn; [| now apply Hseq].
      apply Matches_Or_inv in H as [H|H]; [now apply Hseq |].
      apply IH2 in H. apply nullable_Matches in Hn.
      exact (Matches_Seq _ _ [] (c :: s) Hn H).
    + intros H. apply Matches_Seq_inv in H as (s1 & s2 & Heq & H1 & H2).
      destruct s1 as [|c1 s1].
      * cbn in Heq. subst s2. apply nullable_Matches in H1. rewrite H1.
        apply Matches_Or_r. now apply IH2.
      * cbn in Heq. injection Heq as -> ->. apply IH1 in H1.
        destruct (nullable r1); [apply Matches_Or_l |]; now constructor.
  - split; intros H; apply Matches_Or_inv in H as [H|H];
      [apply Matches_Or_l | apply Matches_Or_r | apply Matches_Or_l | apply Matches_Or_r];
      now (apply IH1 || apply IH2).
  - split.
    + intros H. apply Matches_Seq_inv in H as (s1 & s2 & -> & H1 & H2).
      apply IH in H1. exact (Matches_Star_app _ (c :: s1) s2 H1 H2).
    + intros H. apply Matches_Star_cons_inv in H as (s1 & s2 & -> & H1 & H2).
      apply IH in H1. now constructor.
Qed.

Lemma regex_test_Matches (s : JsString) :
  forall r, regex_test r s = true <-> Matches r s.
Proof.
  unfold regex_test. induction s as [|c s IH]; intros r; cbn [fold_left].
  - apply nullable_Matches.
  - rewrite IH. apply deriv_Matches.
Qed.

(** ** E-mail addresses *)

Lemma Matches_Star_Class (p : N -> bool) (s : JsString) :
  Matches (Star (Class p)) s <-> Forall (fun c => p c = true) s.
Proof.
  split.
  - intros H. remember (Star (Class p)) as r eqn:Hr.
    induction H as [|p0 c0 Hp|r1 r2 s1 s2 H1 IH1 H2 IH2|r1 r2 s0 H0 IH0|r1 r2 s0 H0 IH0
                   |r0|r0 s1 s2 H1 IH1 H2 IH2]; try discriminate.
    + constructor.
    + injection Hr as ->. apply Matches_Class_inv in H1 as (c & -> & Hc).
      constructor; [exact Hc | now apply IH2].
  - induction 1 as [|c s Hc _ IH]; [constructor |].
    exact (Matches_Star_app _ [c] s (Matches_Class p c Hc) IH).
Qed.

Lemma Matches_Plus_Class (p : N -> bool) (s : JsString) :
  Matches (Plus (Class p)) s <-> s <> [] /\ Forall (fun c => p c = true) s.
Proof.
  unfold Plus. split.
  - intros H. apply Matches_Seq_inv in H as (s1 & s2 & -> & H1 & H2).
    apply Matches_Class_inv in H1 as (c & -> & Hc). apply Matches_Star_Class in H2.
    split; [discriminate | now constructor].
  - intros [Hne Hall]. destruct Hall as [|c s Hc Hall]; [congruence |].
    apply (Matches_Seq _ _ [c] s); [now constructor | now apply Matches_Star_Class].
Qed.

Lemma isValidEmail_parts (email : JsString) :
  isValidEmail email = true <->
  exists local domain tld,
    email = local ++ [at_sign] ++ domain ++ [full_stop] ++ tld
    /\ address_part local /\ address_part domain /\ address_part tld.
Proof.
  unfold isValidEmail, emailRegex, address_part. rewrite regex_test_Matches. split.
  - intros H.
    apply Matches_Seq_inv in H as (local & s1 & -> & Hl & H).
    apply Matches_Seq_inv in H as (a & s2 & -> & Ha & H).
    apply Matches_Seq_inv in H as (domain & s3 & -> & Hd & H).
    apply Matches_Seq_inv in H as (d & tld & -> & Hdot & Ht).
    apply Matches_Class_inv in Ha as (c & -> & Hc). apply N.eqb_eq in Hc as <-.
    apply Matches_Class_inv in Hdot as (c & -> & Hc). apply N.eqb_eq in Hc as <-.
    apply Matches_Plus_Class in Hl, Hd, Ht. now exists local, domain, tld.
  - intros (local & domain & tld & -> & Hl & Hd & Ht).
    apply Matches_Plus_Class in Hl, Hd, Ht.
    repeat (apply Matches_Seq; [assumption || (constructor; apply N.eqb_refl) |]).
    assumption.
Qed.

Lemma not_space_or_at_true (c : N) :
  not_space_or_at c = true <-> is_white_space c = false /\ c <> at_sign.
Proof.
  unfold not_space_or_at. rewrite negb_true_iff, orb_false_iff, N.eqb_neq. tauto.
Qed.

Lemma trimStart_no_space (s : JsString) :
  Forall (fun c => is_white_space c = false) s -> trimStart s = s.
Proof. destruct 1 as [|c s Hc _]; cbn; [reflexivity | now rewrite Hc]. Qed.

Lemma trim_no_space (s : JsString) :
  Forall (fun c => is_white_space c = false) s -> trim s = s.
Proof.
  intros H. unfold trim. rewrite (trimStart_no_space s H).
  rewrite trimStart_no_space; [apply rev_involutive |].
  now apply List.Forall_rev.
Qed.

Lemma address_part_facts (s : JsString) :
  address_part s ->
  (1 <= length s)%nat
  /\ Forall (fun c => is_white_space c = false) s
  /\ count_occ N.eq_dec s at_sign = 0%nat.
Proof.
  intros [Hne Hall]. split; [destruct s; [congruence | cbn; lia] |]. split.
  - eapply Forall_impl; [exact Hall |]. intros c Hc.
    now apply not_space_or_at_true in Hc.
  - apply count_occ_not_In. intros Hin.
    rewrite Forall_forall in Hall. apply list_elem_of_In, Hall in Hin.
    apply not_space_or_at_true in Hin as [_ Hin]. congruence.
Qed.

(** X24: [isValidEmail] accepts exactly the strings of the form
    [local@domain.tld] whose three parts are non-empty and contain neither
    white space nor [@]; so an accepted address has exactly one [@], no
    white space anywhere, at least five code units, and is unchanged by
    [trim]. *)
Theorem isValidEmail_characterised (email : JsString) :
  (isValidEmail email = true <->
   exists local domain tld,
     email = local ++ [at_sign] ++ domain ++ [full_stop] ++ tld
     /\ address_part local /\ address_part domain /\ address_part tld)
  /\ (isValidEmail email = true ->
      count_occ N.eq_dec email at_sign = 1%nat
      /\ Forall (fun c => is_white_space c = false) email
      /\ (5 <= length email)%nat
      /\ trim email = email).
Proof.
  split; [apply isValidEmail_parts |].
  intros H. apply isValidEmail_parts in H as (local & domain & tld & -> & Hl & Hd & Ht).
  apply address_part_facts in Hl as (Hl1 & Hl2 & Hl3).
  apply address_part_facts in Hd as (Hd1 & Hd2 & Hd3).
  apply address_part_facts in Ht as (Ht1 & Ht2 & Ht3).
  assert (Hws : Forall (fun c => is_white_space c = false)
                       (local ++ [at_sign] ++ domain ++ [full_stop] ++ tld)).
  { repeat (apply Forall_app; split); try assumption; now repeat constructor. }
  split; [| split; [exact Hws | split; [| now apply trim_no_space]]].
  - rewrite !count_occ_app, Hl3, Hd3, Ht3. reflexivity.
  - rewrite !length_app. cbn [length]. lia.
Qed.

Lemma isValidEmail_characterised_witness :
  let email := [97; 110; 110; 64; 101; 120; 46; 111; 114; 103]%N in
  isValidEmail email = true
  /\ count_occ N.eq_dec email at_sign = 1%nat
  /\ trim email = email.
Proof.
  intros email.
  assert (Hv : isValidEmail email = true) by reflexivity.
  destruct (proj2 (isValidEmail_characterised email) Hv) as (Hc & _ & _ & Ht).
  split; [exact Hv |]. split; assumption.
Defined.

(** ** Form validation *)

Lemma insert_step_empty (e : gmap string string) (c1 c2 : bool)
    (k v1 v2 : string) :
  (if c1 then <[k := v1]> e else if c2 then <[k := v2]> e else e) = ∅
  <-> c1 = false /\ c2 = false /\ e = ∅.
Proof.
  destruct c1; [| destruct c2]; split; try (intros (? & ? & ?); congruence).
  - intros H. now apply insert_non_empty in H.
  - intros H. now apply insert_non_empty in H.
  - auto.
Qed.

Lemma RegisterForm_newErrors_empty (f : RegisterForm.formData) :
  RegisterForm.newErrors f = ∅ <->
  trim (RegisterForm.username f) <> []
  /\ (3 <= length (RegisterForm.username f))%nat
  /\ trim (RegisterForm.email f) <> []
  /\ isValidEmail (RegisterForm.email f) = true
  /\ RegisterForm.password f <> []
  /\ isValidPassword (RegisterForm.password f) = true
  /\ RegisterForm.confirmPassword f <> []
  /\ RegisterForm.password f = RegisterForm.confirmPassword f.
Proof.
  unfold RegisterForm.newErrors. cbv zeta.
  rewrite !insert_step_empty.
  rewrite !bool_decide_eq_false, !negb_false_iff, bool_decide_eq_true, Nat.ltb_ge.
  intuition.
Qed.

(** X25: the registration form is accepted exactly when the user name has
    a non-blank character and at least three code units (blanks counted),
    the e-mail address is valid, the password has at least eight code
    units and the confirmation repeats it; the login form exactly when the
    user name has a non-blank character and the password is not empty. *)
Theorem forms_accept_iff (r : RegisterForm.formData) (l : LoginForm.formData) :
  (RegisterForm.validateForm r = true <->
   trim (RegisterForm.username r) <> []
   /\ (3 <= length (RegisterForm.username r))%nat
   /\ isValidEmail (RegisterForm.email r) = true
   /\ (8 <= length (RegisterForm.password r))%nat
   /\ RegisterForm.confirmPassword r = RegisterForm.password r)
  /\ (LoginForm.validateForm l = true <->
      trim (LoginForm.username l) <> [] /\ LoginForm.password l <> []).
Proof.
  split.
  - unfold RegisterForm.validateForm.
    rewrite bool_decide_eq_true, map_size_empty_iff, RegisterForm_newErrors_empty.
    unfold isValidPassword. rewrite Nat.leb_le. split.
    + intros (Hu & Hu3 & _ & He & _ & Hp & _ & Hc). auto.
    + intros (Hu & Hu3 & He & Hp & Hc).
      assert (Hne : RegisterForm.password r <> [])
        by (destruct (RegisterForm.password r); [cbn in Hp; lia | discriminate]).
      assert (Htrim : trim (RegisterForm.email r) <> []).
      { pose proof He as Hv.
        apply isValidEmail_parts in Hv as (lo & d & t & Heq & Hl & Hd & Ht).
        apply address_part_facts in Hl as (Hl1 & Hl2 & _).
        apply address_part_facts in Hd as (_ & Hd2 & _).
        apply address_part_facts in Ht as (_ & Ht2 & _).
        rewrite Heq, trim_no_space.
        - destruct lo; [cbn in Hl1; lia | discriminate].
        - repeat (apply Forall_app; split); try assumption; now repeat constructor. }
      rewrite Hc in *. auto 10.
  - unfold LoginForm.validateForm, LoginForm.newErrors. cbv zeta.
    rewrite bool_decide_eq_true, map_size_empty_iff.
    repeat case_bool_decide; split; try tauto;
      intros Hempty; now apply insert_non_empty in Hempty.
Qed.

Lemma forms_accept_iff_witness :
  let ann := [97; 110; 110]%N in
  let mail := [97; 110; 110; 64; 101; 120; 46; 111; 114; 103]%N in
  let secret := [115; 101; 99; 114; 101; 116; 49; 50]%N in
  let padded := [32; 32; 97]%N in
  RegisterForm.validateForm (RegisterForm.mkFormData padded mail secret secret [] [])
  = true
  /\ LoginForm.validateForm (LoginForm.mkFormData ann secret) = true.
Proof.
  intros ann mail secret padded.
  destruct (forms_accept_iff (RegisterForm.mkFormData padded mail secret secret [] [])
              (LoginForm.mkFormData ann secret)) as [Hr Hl].
  split.
  - apply Hr. cbn. repeat split; try discriminate; lia.
  - apply Hl. cbn. split; discriminate.
Defined.

(** ** Grouping by date: what the maps hold *)

Lemma groupDailyMetricsByDate_lookup (metrics : list DailyMetrics.t) (d : string) :
  groupDailyMetricsByDate metrics !! d
  = last (filter (fun m => DailyMetrics.date m = d) metrics).
Proof.
  unfold groupDailyMetricsByDate.
  rewrite fold_groupDailyMetrics_lookup, lookup_empty. now destruct (last _).
Qed.

Lemma groupDailyMetricsByDate_snoc (metrics : list DailyMetrics.t) (m : DailyMetrics.t) :
  groupDailyMetricsByDate (metrics ++ [m])
  = <[DailyMetrics.date m := m]> (groupDailyMetricsByDate metrics).
Proof. unfold groupDailyMetricsByDate. now rewrite fold_left_app. Qed.

Lemma filter_date_nil (metrics : list DailyMetrics.t) (d : string) :
  d ∉ map DailyMetrics.date metrics ->
  filter (fun m => DailyMetrics.date m = d) metrics = [].
Proof.
  induction metrics as [|m ms IH]; intros Hnot; [reflexivity |].
  cbn [map] in Hnot. apply not_elem_of_cons in Hnot as [Hne Hnot].
  rewrite filter_cons_False by congruence. now apply IH.
Qed.

(** X26: the index by date has an entry for a date exactly when some
    entity carries it; and when no two entities share a date nothing is
    lost: every entity is found under its own date and the index has as
    many entries as the input. *)
Theorem groupDailyMetricsByDate_lossless (metrics : list DailyMetrics.t) :
  (forall d, groupDailyMetricsByDate metrics !! d = None
             <-> d ∉ map DailyMetrics.date metrics)
  /\ (NoDup (map DailyMetrics.date metrics) ->
      (forall m, m ∈ metrics ->
                 groupDailyMetricsByDate metrics !! DailyMetrics.date m = Some m)
      /\ size (groupDailyMetricsByDate metrics) = length metrics).
Proof.
  assert (Hnone : forall ms d, groupDailyMetricsByDate ms !! d = None
                               <-> d ∉ map DailyMetrics.date ms).
  { intros ms d. rewrite groupDailyMetricsByDate_lookup, last_None. split.
    - intros Hnil Hin. apply list_elem_of_fmap in Hin as (m & -> & Hin).
      assert (Hf : m ∈ filter (fun m' => DailyMetrics.date m' = DailyMetrics.date m) ms)
        by (apply list_elem_of_filter; auto).
      rewrite Hnil in Hf. now apply not_elem_of_nil in Hf.
    - apply filter_date_nil. }
  split; [apply Hnone |].
  induction metrics as [|m ms IH] using rev_ind; intros Hnd.
  - split; [intros m Hm; now apply not_elem_of_nil in Hm | reflexivity].
  - rewrite map_app in Hnd. cbn [map] in Hnd.
    apply NoDup_app in Hnd as (Hnd & Hdisj & _).
    destruct (IH Hnd) as [IHl IHs].
    assert (Hfresh : DailyMetrics.date m ∉ map DailyMetrics.date ms).
    { intros Hin. apply (Hdisj _ Hin). now left. }
    rewrite groupDailyMetricsByDate_snoc. split.
    + intros m' Hin. apply elem_of_app in Hin as [Hin|Hin].
      * rewrite lookup_insert_ne; [now apply IHl |].
        intros Heq. apply Hfresh. rewrite Heq. now apply list_elem_of_fmap_2.
      * apply list_elem_of_singleton in Hin as ->. apply lookup_insert_eq.
    + rewrite map_size_insert_None by now apply Hnone.
      rewrite IHs, length_app. cbn. lia.
Qed.

Lemma groupDailyMetricsByDate_lossless_witness :
  let a := sample_day "2024-01-01" (Some 61%Q) in
  let b := sample_day "2024-01-02" (Some 64%Q) in
  NoDup (map DailyMetrics.date [a; b])
  /\ groupDailyMetricsByDate [a; b] !! "2024-01-02"%string = Some b
  /\ size (groupDailyMetricsByDate [a; b]) = 2%nat.
Proof.
  intros a b.
  assert (Hnd : NoDup (map DailyMetrics.date [a; b])).
  { cbn. apply NoDup_cons. split; [| apply NoDup_singleton].
    intros Hin. apply list_elem_of_singleton in Hin. discriminate Hin. }
  destruct (proj2 (groupDailyMetricsByDate_lossless [a; b]) Hnd) as [Hl Hs].
  split; [exact Hnd |]. split; [| exact Hs].
  apply (Hl b). apply elem_of_cons. right. apply list_elem_of_singleton. reflexivity.
Defined.

(** X27: grouping workouts by date loses none and invents none: every
    workout is in the group of its own date, every member of a group is a
    workout of that date from the input, and no group is empty. *)
Theorem groupWorkoutsByDate_partition (dayjs_parse : string -> option Dayjs.t)
    (workouts : list Workout.t) :
  (forall w, w ∈ workouts ->
     exists bucket,
       groupWorkoutsByDate dayjs_parse workouts
         !! formatDate dayjs_parse (Workout.start_date w) = Some bucket
       /\ w ∈ bucket)
  /\ (forall d bucket,
        groupWorkoutsByDate dayjs_parse workouts !! d = Some bucket ->
        bucket <> []
        /\ forall w, w ∈ bucket ->
                     w ∈ workouts /\ formatDate dayjs_parse (Workout.start_date w) = d).
Proof.
  assert (Hlook : forall d,
             groupWorkoutsByDate dayjs_parse workouts !! d
             = match filter (fun w => formatDate dayjs_parse (Workout.start_date w) = d)
                            workouts with
               | [] => None
               | more => Some more
               end).
  { intros d. unfold groupWorkoutsByDate.
    now rewrite fold_groupWorkouts_lookup, lookup_empty. }
  split.
  - intros w Hin. rewrite Hlook.
    assert (Hf : w ∈ filter (fun w' => formatDate dayjs_parse (Workout.start_date w')
                                      = formatDate dayjs_parse (Workout.start_date w))
                            workouts)
      by (apply list_elem_of_filter; auto).
    destruct (filter _ workouts) as [|x l] eqn:Hfl;
      [now apply not_elem_of_nil in Hf | eauto].
  - intros d bucket. rewrite Hlook.
    destruct (filter _ workouts) as [|x l] eqn:Hfl; [discriminate |].
    intros [= <-]. split; [discriminate |].
    intros w Hw. rewrite <- Hfl in Hw. apply list_elem_of_filter in Hw. tauto.
Qed.

Lemma groupWorkoutsByDate_partition_witness :
  let a := sample_workout 1 "2024-03-01T07:00:00Z" (Some 5%Q) (Some 300%Q) in
  let b := sample_workout 2 "not a date" None (Some 450%Q) in
  a ∈ [a; b]
  /\ exists bucket,
       groupWorkoutsByDate sample_parse [a; b] !! "Invalid Date"%string = Some bucket
       /\ b ∈ bucket.
Proof.
  intros a b. split; [apply elem_of_cons; now left |].
  apply (proj1 (groupWorkoutsByDate_partition sample_parse [a; b]) b).
  apply elem_of_cons. right. apply list_elem_of_singleton. reflexivity.
Defined.
